(** * generate_index.py: the plugin registry generator

    A shallow embedding of [src/generate_index.py] and the properties of its
    per-entry resolution pipeline ([getPluginJson]) and of the batch run
    ([main]): failure isolation, the registry diff, the README fallback, the
    schema normalisation and the short-URL cache.

    Conventions of the embedding.
    - A Python [str] is a Rocq [string] holding its UTF-8 encoding; [len]
      counts code points, i.e. the bytes that are not continuation bytes.
    - JSON documents are values of [json]; a JSON object keeps the insertion
      order of its keys, as a Python [dict] does.  Numbers are integers or
      finite rationals standing for finite floats (NaN and the infinities
      are outside the model).
    - The network, the environment and the library codecs are the fields of
      a [World] record; every definition of the program takes it as its
      first argument.
    - Effects are explicit: a computation of [M A] receives the [shortUrls]
      dictionary shared between [main] and [getPluginJson], returns it, and
      emits the requests and diagnostics it performed.  An outcome is a
      value, an early [return] of the enclosing function, or an exception. *)

From Stdlib Require Import List String Ascii ZArith QArith Bool Lia.
From Stdlib Require Import DecimalString.
Import ListNotations.
#[local] Close Scope Q_scope.
#[local] Open Scope list_scope.
#[local] Open Scope string_scope.

Set Warnings "-register-all".

(** ** JSON values *)

Inductive json : Type :=
| JNull
| JBool (b : bool)
| JInt (z : Z)
| JFloat (q : Q)
| JStr (s : string)
| JArr (items : list json)
| JObj (fields : list (string * json)).

(** A JSON object (a Python [dict] with [str] keys), in insertion order. *)
Definition obj := list (string * json).

(** A Python [dict] whose keys are arbitrary hashable values. *)
Definition pydict := list (json * json).

Module Obj.

(** [d[k]] / [d.get(k)]: the first binding of [k]. *)
Fixpoint get (k : string) (o : obj) : option json :=
  match o with
  | [] => None
  | (k', v) :: o' => if String.eqb k' k then Some v else get k o'
  end.

(** [k in d]. *)
Definition mem (k : string) (o : obj) : bool :=
  match get k o with Some _ => true | None => false end.

(** [d[k] = v]: an existing key keeps its position, a new key goes last. *)
Fixpoint set (k : string) (v : json) (o : obj) : obj :=
  match o with
  | [] => [(k, v)]
  | (k', v') :: o' =>
      if String.eqb k' k then (k', v) :: o' else (k', v') :: set k v o'
  end.

(** [del d[k]]: no binding of [k] remains. *)
Definition del (k : string) (o : obj) : obj :=
  filter (fun kv => negb (String.eqb (fst kv) k)) o.

End Obj.

(** ** Python strings *)

Module Str.

(** [needle in hay] on two strings. *)
Fixpoint contains (needle hay : string) : bool :=
  if String.prefix needle hay then true
  else match hay with
       | EmptyString => false
       | String _ rest => contains needle rest
       end.

(** [s.split(sep)[0]]: the part of [s] before the first [sep]. *)
Fixpoint before (sep : ascii) (s : string) : string :=
  match s with
  | EmptyString => EmptyString
  | String c rest =>
      if Ascii.eqb c sep then EmptyString else String c (before sep rest)
  end.

Fixpoint map (f : ascii -> ascii) (s : string) : string :=
  match s with
  | EmptyString => EmptyString
  | String c rest => String (f c) (map f rest)
  end.

Fixpoint filter (p : ascii -> bool) (s : string) : string :=
  match s with
  | EmptyString => EmptyString
  | String c rest => if p c then String c (filter p rest) else filter p rest
  end.

Fixpoint forallb (p : ascii -> bool) (s : string) : bool :=
  match s with
  | EmptyString => true
  | String c rest => p c && forallb p rest
  end.

(** A byte of the form 10xxxxxx continues a multi-byte UTF-8 character. *)
Definition is_continuation (c : ascii) : bool :=
  let n := N_of_ascii c in (128 <=? n)%N && (n <? 192)%N.

(** [len(s)]: the number of code points. *)
Fixpoint len (s : string) : nat :=
  match s with
  | EmptyString => O
  | String c rest => if is_continuation c then len rest else S (len rest)
  end.

Definition starts_with_continuation (s : string) : bool :=
  match s with
  | String c _ => is_continuation c
  | EmptyString => false
  end.

(** The code points of [s], each as a one-character string. *)
Fixpoint chars (s : string) : list string :=
  match s with
  | EmptyString => []
  | String c rest =>
      let tail := chars rest in
      if starts_with_continuation rest then
        match tail with
        | following :: others => String c following :: others
        | [] => [String c EmptyString]
        end
      else String c EmptyString :: tail
  end.

(** [s.replace("\r\n", "\n")]. *)
Fixpoint replace_crlf (s : string) : string :=
  match s with
  | EmptyString => EmptyString
  | String c rest =>
      match rest with
      | String c' rest' =>
          if Ascii.eqb c "013" && Ascii.eqb c' "010"
          then String "010" (replace_crlf rest')
          else String c (replace_crlf rest)
      | EmptyString => String c EmptyString
      end
  end.

(** U+FEFF, the byte-order mark, in UTF-8. *)
Definition bom : string :=
  String (ascii_of_nat 239) (String (ascii_of_nat 187)
    (String (ascii_of_nat 191) EmptyString)).

(** [if s.startswith(BOM): s = s[1:]], the mark being one code point. *)
Definition strip_bom (s : string) : string :=
  if String.prefix bom s then String.substring 3 (String.length s - 3) s
  else s.

End Str.

(** ** Python operators on JSON values *)

Inductive exn : Type :=
| HTTPError
| KeyError
| TypeError
| ValueError
| AttributeError
| AssertionError
| ZeroDivisionError
| JSONDecodeError
| OtherError (what : string).

Definition exn_is_http (e : exn) : bool :=
  match e with HTTPError => true | _ => false end.

(** The result of a pure operation that may raise. *)
Inductive result (A : Type) : Type :=
| Ok (a : A)
| Err (e : exn).
Arguments Ok {A} a.
Arguments Err {A} e.

Module Py.

(** The numeric value of a [bool], [int] or [float]. *)
Definition num (j : json) : option Q :=
  match j with
  | JBool b => Some (inject_Z (if b then 1 else 0))
  | JInt z => Some (inject_Z z)
  | JFloat q => Some q
  | _ => None
  end.

(** [a == b]: numbers compare by value across [bool], [int] and [float],
    lists element-wise, dicts as unordered maps. *)
Fixpoint eq (a b : json) {struct a} : bool :=
  match a, b with
  | JNull, JNull => true
  | JStr s, JStr t => String.eqb s t
  | JArr l, JArr m =>
      (fix eq_list (l m : list json) {struct l} : bool :=
         match l, m with
         | [], [] => true
         | x :: l', y :: m' => eq x y && eq_list l' m'
         | _, _ => false
         end) l m
  | JObj l, JObj m =>
      Nat.eqb (List.length l) (List.length m) &&
      (fix eq_fields (l : list (string * json)) {struct l} : bool :=
         match l with
         | [] => true
         | (k, v) :: l' =>
             match Obj.get k m with
             | Some w => eq v w
             | None => false
             end && eq_fields l'
         end) l
  | _, _ =>
      match num a, num b with
      | Some x, Some y => Qeq_bool x y
      | _, _ => false
      end
  end.

(** [bool(j)]. *)
Definition truthy (j : json) : bool :=
  match j with
  | JNull => false
  | JBool b => b
  | JInt z => negb (Z.eqb z 0)
  | JFloat q => negb (Qeq_bool q (inject_Z 0))
  | JStr s => negb (String.eqb s "")
  | JArr l => match l with [] => false | _ => true end
  | JObj o => match o with [] => false | _ => true end
  end.

(** [isinstance(j, int)]: a [bool] is an [int]. *)
Definition isinstance_int (j : json) : bool :=
  match j with JInt _ | JBool _ => true | _ => false end.

Definition isinstance_str (j : json) : bool :=
  match j with JStr _ => true | _ => false end.

(** [hash(j)] is defined: lists and dicts are unhashable. *)
Definition hashable (j : json) : bool :=
  match j with JArr _ | JObj _ => false | _ => true end.

(** [k in c] for a string [k]: key of a dict, element of a list,
    substring of a string. *)
Definition contains (k : string) (c : json) : result bool :=
  match c with
  | JObj o => Ok (Obj.mem k o)
  | JArr l => Ok (existsb (fun x => eq x (JStr k)) l)
  | JStr s => Ok (Str.contains k s)
  | _ => Err TypeError
  end.

(** [c[k]] for a string [k]. *)
Definition getitem (c : json) (k : string) : result json :=
  match c with
  | JObj o => match Obj.get k o with Some v => Ok v | None => Err KeyError end
  | _ => Err TypeError
  end.

(** [c.get(k)]: only a dict has the method. *)
Definition dict_get (c : json) (k : string) : result json :=
  match c with
  | JObj o => match Obj.get k o with Some v => Ok v | None => Ok JNull end
  | _ => Err AttributeError
  end.

(** [c[k] = v] for a string [k]. *)
Definition setitem (c : json) (k : string) (v : json) : result obj :=
  match c with
  | JObj o => Ok (Obj.set k v o)
  | _ => Err TypeError
  end.

(** [for x in c]: the elements of a list, the keys of a dict, the
    characters of a string. *)
Definition iter (c : json) : result (list json) :=
  match c with
  | JArr l => Ok l
  | JObj o => Ok (List.map (fun kv => JStr (fst kv)) o)
  | JStr s =>
      Ok (List.map JStr (Str.chars s))
  | _ => Err TypeError
  end.

(** [len(c)]. *)
Definition len (c : json) : result nat :=
  match c with
  | JStr s => Ok (Str.len s)
  | JArr l => Ok (List.length l)
  | JObj o => Ok (List.length o)
  | _ => Err TypeError
  end.

(** [a > b]: numbers by value, strings and lists lexicographically; any
    other pair of operands is a [TypeError]. *)
Fixpoint gt (a b : json) {struct a} : result bool :=
  match a, b with
  | JStr s, JStr t => Ok (String.ltb t s)
  | JArr l, JArr m =>
      (fix gt_list (l m : list json) {struct l} : result bool :=
         match l, m with
         | [], _ => Ok false
         | _ :: _, [] => Ok true
         | x :: l', y :: m' => if eq x y then gt_list l' m' else gt x y
         end) l m
  | _, _ =>
      match num a, num b with
      | Some x, Some y => Ok (negb (Qle_bool x y))
      | _, _ => Err TypeError
      end
  end.

(** [a < b]. *)
Definition lt (a b : json) : result bool := gt b a.

(** Lookup in a dict with arbitrary keys. *)
Fixpoint lookup (k : json) (d : pydict) : option json :=
  match d with
  | [] => None
  | (k', v) :: d' => if eq k' k then Some v else lookup k d'
  end.

(** [d[k] = v] without the hashability check. *)
Fixpoint store (k v : json) (d : pydict) : pydict :=
  match d with
  | [] => [(k, v)]
  | (k', v') :: d' =>
      if eq k' k then (k', v) :: d' else (k', v') :: store k v d'
  end.

(** [k in d]. *)
Definition dict_contains (k : json) (d : pydict) : result bool :=
  if hashable k
  then Ok (match lookup k d with Some _ => true | None => false end)
  else Err TypeError.

(** [d[k]]. *)
Definition dict_getitem (d : pydict) (k : json) : result json :=
  if hashable k
  then match lookup k d with Some v => Ok v | None => Err KeyError end
  else Err TypeError.

(** [d[k] = v]. *)
Definition dict_setitem (d : pydict) (k v : json) : result pydict :=
  if hashable k then Ok (store k v d) else Err TypeError.

(** [x in l] for a list [l]. *)
Definition list_contains (x : json) (l : list json) : bool :=
  existsb (fun y => eq y x) l.

End Py.

(** ** The world outside the program *)

(** What the program receives from its environment.  [http_get url] is
    [getfile(url).json()]: the decoded body or the exception raised by the
    request or by the decoding.  [shortener_post url body] is
    [json.loads(requests.post(url, json=body).text)]. *)
Record World : Type := {
  http_get : string -> result json;
  shortener_post : string -> json -> result json;
  URL_SHORTENER : option string;      (* os.getenv("URL_SHORTENER") *)
  b64decode : string -> option string;   (* base64.b64decode *)
  utf8_decode : string -> option string; (* bytes.decode('utf-8') *)
  json_loads : string -> option json;    (* json.loads *)
  parse_timestamp : string -> option Z;  (* int(parser.parse(s).timestamp()) *)
  isoformat_utc : Z -> string;  (* datetime.fromtimestamp(t, utc).isoformat() *)
  py_repr : json -> string      (* str() of a float, a list or a dict *)
}.

(** What the program does to its environment. *)
Inductive event : Type :=
| EGet (url : string)
| EPost (url : string) (body : json)
| EPrint (msg : string).

(** ** The monad of the program *)

Inductive outcome (A : Type) : Type :=
| Normal (a : A)
| Returned (r : option json)
| Raised (e : exn).
Arguments Normal {A} a.
Arguments Returned {A} r.
Arguments Raised {A} e.

Definition M (A : Type) : Type := pydict -> outcome A * pydict * list event.

Definition ret {A} (a : A) : M A := fun s => (Normal a, s, []).

Definition bind {A B} (m : M A) (f : A -> M B) : M B :=
  fun s =>
    match m s with
    | (Normal a, s1, t1) =>
        match f a s1 with (r, s2, t2) => (r, s2, (t1 ++ t2)%list) end
    | (Returned r, s1, t1) => (Returned r, s1, t1)
    | (Raised e, s1, t1) => (Raised e, s1, t1)
    end.

Notation "x <- m ;; k" := (bind m (fun x => k))
  (at level 61, m at next level, right associativity).
Notation "' pat <- m ;; k" := (bind m (fun x => match x with pat => k end))
  (at level 61, pat pattern, m at next level, right associativity).
Notation "m >> k" := (bind m (fun _ => k))
  (at level 61, right associativity).

Definition raise {A} (e : exn) : M A := fun s => (Raised e, s, []).

(** [return r] inside a function body. *)
Definition return_ {A} (r : option json) : M A := fun s => (Returned r, s, []).

Definition emit (e : event) : M unit := fun s => (Normal tt, s, [e]).

Definition print (msg : string) : M unit := emit (EPrint msg).

Definition get_store : M pydict := fun s => (Normal s, s, []).

Definition set_store (d : pydict) : M unit := fun _ => (Normal tt, d, []).

Definition liftR {A} (r : result A) : M A :=
  match r with Ok a => ret a | Err e => raise e end.

(** [try: body / except <h>]: the handler sees the exception. *)
Definition catch {A} (body : M A) (h : exn -> M A) : M A :=
  fun s =>
    match body s with
    | (Raised e, s1, t1) =>
        match h e s1 with (r, s2, t2) => (r, s2, (t1 ++ t2)%list) end
    | other => other
    end.

(** [try: body / except requests.exceptions.HTTPError: handler]. *)
Definition try_http {A} (body handler : M A) : M A :=
  catch body (fun e => if exn_is_http e then handler else raise e).

(** A function call: an early [return] becomes the value of the call. *)
Definition call (body : M (option json)) : M (option json) :=
  fun s =>
    match body s with
    | (Returned r, s1, t1) => (Normal r, s1, t1)
    | other => other
    end.

Definition when (b : bool) (m : M unit) : M unit := if b then m else ret tt.

(** ** The program *)

Section Program.

Variable W : World.

Definition nl : string := String "010"%char EmptyString.

(** [str(j)], as an f-string formats a value. *)
Definition py_format (j : json) : string :=
  match j with
  | JStr s => s
  | JNull => "None"
  | JBool true => "True"
  | JBool false => "False"
  | JInt z => NilZero.string_of_int (Z.to_int z)
  | _ => py_repr W j
  end.

Definition contains (k : string) (c : json) : M bool := liftR (Py.contains k c).
Definition getitem (c : json) (k : string) : M json := liftR (Py.getitem c k).
Definition iter (c : json) : M (list json) := liftR (Py.iter c).

(** [getfile(url).json()] (lines 26-27). *)
Definition getfile (url : string) : M json :=
  emit (EGet url) >> liftR (http_get W url).

(** [base64.b64decode(content)] of a JSON value: only a string decodes. *)
Definition b64 (content : json) : M string :=
  match content with
  | JStr c =>
      match b64decode W c with
      | Some bytes => ret bytes
      | None => raise ValueError
      end
  | _ => raise TypeError
  end.

(** [base64.b64decode(content).decode('utf-8')]. *)
Definition b64_text (content : json) : M string :=
  bytes <- b64 content ;;
  match utf8_decode W bytes with
  | Some text => ret text
  | None => raise ValueError
  end.

(** [k in plugin and plugin[k]], as a condition. *)
Definition flag (k : string) (plugin : json) : result bool :=
  match Py.contains k plugin with
  | Ok true =>
      match Py.getitem plugin k with
      | Ok v => Ok (Py.truthy v)
      | Err e => Err e
      end
  | Ok false => Ok false
  | Err e => Err e
  end.

(** [f"{plugin['tag']}"]. *)
Definition tag_ref (plugin : json) : M string :=
  t <- getitem plugin "tag" ;; ret (py_format t).

Definition site : string := "https://github.com/".

Definition api (name : string) : string :=
  "https://api.github.com/repos/" ++ name.

(** *** The pre-hosted index (lines 33-39) *)

(** The loop of line 35 rebinds [plugin] to each item in turn; it compares
    the item's name with itself and returns the item. *)
Fixpoint site_loop (plugin : json) (items : list json) : M json :=
  match items with
  | [] => ret plugin
  | item :: rest =>
      n1 <- getitem item "name" ;;
      n2 <- getitem item "name" ;;
      if Py.eq n1 n2 then return_ (Some item) else site_loop item rest
  end.

Definition site_lookup (plugin : json) : M (option json) :=
  url <- getitem plugin "site" ;;
  pluginsJson <- match url with
                 | JStr u => getfile u
                 | _ => raise ValueError
                 end ;;
  items <- iter pluginsJson ;;
  plugin <- site_loop plugin items ;;
  n <- getitem plugin "name" ;;
  s <- getitem plugin "site" ;;
  print ("No plugin matching " ++ py_format n ++ " found in " ++ py_format s) >>
  return_ None.

(** *** Release reference (lines 48-86)

    Returns the entry, with its [tag] set for an [auto_update] entry, and
    the release data ([None] for a view-only entry). *)
Definition no_release (name : string) : string :=
  nl ++ nl ++ "ERROR: " ++ name ++
  ", Couldn't get release information. Likely the user created a tag but no associated release."
  ++ nl.

Definition resolve_release (plugin : json) (name : string)
    (view_only auto_update : bool) : M (json * json) :=
  let projectUrl := api name in
  if auto_update then
    let latestRelease := projectUrl ++ "/releases/latest" in
    try_http
      (releaseData <- getfile latestRelease ;;
       msg <- liftR (Py.dict_get releaseData "message") ;;
       if Py.eq msg (JStr "Not Found") then
         n <- getitem plugin "name" ;;
         print (no_release (py_format n)) >> return_ None
       else if Py.eq msg (JStr "Bad credentials") then
         print (nl ++ nl ++ "ERROR: Bad credentials, check access token." ++ nl)
         >> return_ None
       else
         t <- getitem releaseData "tag_name" ;;
         plugin' <- liftR (Py.setitem plugin "tag" t) ;;
         ret (JObj plugin', releaseData))
      (print (" Unable to get url " ++ latestRelease) >> return_ None)
  else if view_only then
    ret (plugin, JNull)
  else
    t <- tag_ref plugin ;;
    let releases := projectUrl ++ "/releases/tags/" ++ t in
    try_http
      (releaseData <- getfile releases ;;
       has <- contains "message" releaseData ;;
       notfound <- (if has then
                      m <- getitem releaseData "message" ;;
                      ret (Py.eq m (JStr "Not Found"))
                    else ret false) ;;
       if notfound then
         n <- getitem plugin "name" ;;
         print (no_release (py_format n)) >>
         print ("Tried to use URL: " ++ releases) >>
         return_ None
       else ret (plugin, releaseData))
      (print (" Unable to get url " ++ releases) >> return_ None).

(** *** Commit and artifact (lines 88-105) *)

(** The loop of lines 95-99: the first tag whose name equals the entry's
    tag gives the commit and the archive URL; both stay [None] otherwise. *)
Fixpoint find_tag (plugin : json) (tags : list json) : M (json * json) :=
  match tags with
  | [] => ret (JNull, JNull)
  | tag :: rest =>
      n <- getitem tag "name" ;;
      t <- getitem plugin "tag" ;;
      if Py.eq n t then
        c <- getitem tag "commit" ;;
        sha <- getitem c "sha" ;;
        zipUrl <- getitem tag "zipball_url" ;;
        ret (sha, zipUrl)
      else find_tag plugin rest
  end.

Definition is_None (j : json) : bool :=
  match j with JNull => true | _ => false end.

Definition resolve_commit (plugin : json) (name : string) : M (json * json) :=
  let tagsUrl := api name ++ "/tags" in
  try_http
    (tagData <- getfile tagsUrl ;;
     tags <- iter tagData ;;
     cz <- find_tag plugin tags ;;
     if is_None (fst cz) then
       t <- tag_ref plugin ;;
       n <- getitem plugin "name" ;;
       print ("Unable to associate tag " ++ t ++ " with a commit for plugin "
              ++ py_format n) >>
       return_ None
     else ret cz)
    (print (" Unable to get url " ++ tagsUrl) >> return_ None).

(** *** Short URL (lines 107-117) *)

Definition shortener_request (zipUrl : json) : json :=
  JObj [("cdn_prefix", JStr "v35.us"); ("url_long", zipUrl)].

Definition shorten (zipUrl : json) : M json :=
  shortUrls <- get_store ;;
  hit <- liftR (Py.dict_contains zipUrl shortUrls) ;;
  if hit then liftR (Py.dict_getitem shortUrls zipUrl)
  else
    match URL_SHORTENER W with
    | Some url =>
        if String.eqb url "" then ret (JStr "")
        else
          (if String.eqb url "" then raise AssertionError else ret tt) >>
          emit (EPost url (shortener_request zipUrl)) >>
          jsonResponse <- liftR (shortener_post W url (shortener_request zipUrl)) ;;
          err <- getitem jsonResponse "error" ;;
          shortUrl <- (if Py.eq err (JStr "")
                       then getitem jsonResponse "url_short"
                       else ret (JStr "")) ;;
          match shortUrl with
          | JStr s =>
              if String.prefix "http" s then ret shortUrl
              else raise AssertionError
          | _ => raise AttributeError
          end
    | None => ret (JStr "")
    end.

(** *** Project metadata (lines 119-124) *)

Definition fetch_project (name : string) : M json :=
  try_http (getfile (api name))
    (print (" Unable to get url " ++ api name) >> return_ None).

(** *** Plugin descriptor and README fallback (lines 126-169) *)

(** [f"{projectUrl}/contents/{path}"], pinned to the tag unless view-only. *)
Definition contents_url (plugin : json) (name : string) (view_only : bool)
    (path : string) : M string :=
  if view_only then ret (api name ++ "/contents/" ++ path)
  else
    t <- tag_ref plugin ;;
    ret (api name ++ "/contents/" ++ path ++ "?ref=" ++ t).

Definition descriptor_url (plugin : json) (name : string) (view_only : bool)
    : M string :=
  has_subdir <- contains "subdir" plugin ;;
  if has_subdir then
    sd <- getitem plugin "subdir" ;;
    contents_url plugin name view_only (py_format sd ++ "/plugin.json")
  else contents_url plugin name view_only "plugin.json".

Definition readmes : list string :=
  ["README.md"; "README.MD"; "readme.md"; "README"; "readme"; "Readme.md"].

(** The loop of lines 152-161. *)
Fixpoint readme_loop (plugin : json) (name : string) (view_only : bool)
    (data : json) (files : list string) : M json :=
  match files with
  | [] => ret data
  | readmefile :: rest =>
      readmeUrl <- contents_url plugin name view_only readmefile ;;
      readmeJson <- getfile readmeUrl ;;
      has_encoding <- contains "encoding" readmeJson ;;
      both <- (if has_encoding then contains "content" readmeJson
               else ret false) ;;
      if both then
        enc <- getitem readmeJson "encoding" ;;
        if Py.eq enc (JStr "base64") then
          c <- getitem readmeJson "content" ;;
          text <- b64_text c ;;
          data' <- liftR (Py.setitem data "longdescription" (JStr text)) ;;
          ret (JObj data')
        else readme_loop plugin name view_only data rest
      else readme_loop plugin name view_only data rest
  end.

(** Lines 147-163: any exception leaves the descriptor as it was. *)
Definition readme_backfill (plugin : json) (name : string) (view_only : bool)
    (data : json) : M json :=
  catch
    (has_subdir <- contains "subdir" plugin ;;
     files <- (if has_subdir then
                 sd <- getitem plugin "subdir" ;;
                 ret (List.app
                        (List.map (fun x => py_format sd ++ "/" ++ x) readmes)
                        readmes)
               else ret readmes) ;;
     readme_loop plugin name view_only data files)
    (fun _ => ret data).

(** The condition of line 146. *)
Definition needs_readme (data : json) : M bool :=
  has <- contains "longdescription" data ;;
  short <- (if has then
              ld <- getitem data "longdescription" ;;
              n <- liftR (Py.len ld) ;;
              ret (n <? 100)%nat
            else ret false) ;;
  if short then ret true
  else has' <- contains "longdescription" data ;; ret (negb has').

(** Line 142, with the handler of lines 143-145: report and re-raise. *)
Definition decode_descriptor (pluginjson : string) (content : json) : M json :=
  catch
    (bytes <- b64 content ;;
     match json_loads W bytes with
     | Some data => ret data
     | None => raise JSONDecodeError
     end)
    (fun e =>
       print (nl ++ nl ++ "Invalid json when parsing " ++ pluginjson ++ nl)
       >> raise e).

Definition fetch_descriptor (plugin : json) (name : string)
    (view_only debug : bool) : M json :=
  pluginjson <- descriptor_url plugin name view_only ;;
  try_http
    (when debug (print ("Getting plugin.json from " ++ pluginjson)) >>
     response <- getfile pluginjson ;;
     content <- getitem response "content" ;;
     data <- decode_descriptor pluginjson content ;;
     need <- needs_readme data ;;
     data <- (if need then readme_backfill plugin name view_only data
              else ret data) ;;
     enveloped <- contains "plugin" data ;;
     if enveloped then getitem data "plugin" else ret data)
    (print (" Unable to get url " ++ pluginjson) >> return_ None).

(** *** Dependencies (lines 171-186) *)

Definition fetch_requirements (plugin : json) (name : string)
    (view_only : bool) : M string :=
  if view_only then ret ""
  else
    try_http
      (has_subdir <- contains "subdir" plugin ;;
       req_json <-
         (if has_subdir then
            sd <- getitem plugin "subdir" ;;
            t <- tag_ref plugin ;;
            req_json <- getfile (api name ++ "/contents/" ++ py_format sd
                                 ++ "/requirements.txt?ref=" ++ t) ;;
            has <- contains "content" req_json ;;
            if negb has then
              t <- tag_ref plugin ;;
              getfile (api name ++ "/contents/requirements.txt?ref=" ++ t)
            else ret req_json
          else
            t <- tag_ref plugin ;;
            getfile (api name ++ "/contents/requirements.txt?ref=" ++ t)) ;;
       has <- contains "content" req_json ;;
       if has then
         c <- getitem req_json "content" ;;
         text <- b64_text c ;;
         ret (Str.replace_crlf (Str.strip_bom text))
       else ret "")
      (ret "").

(** *** Derived fields and schema normalisation (lines 188-245) *)

Definition and_then {A B} (r : result A) (f : A -> result B) : result B :=
  match r with Ok a => f a | Err e => Err e end.

Notation "x <~ r ;; k" := (and_then r (fun x => k))
  (at level 61, r at next level, right associativity).

(** [int(parser.parse(j).timestamp())]. *)
Definition timestamp_of (j : json) : result Z :=
  match j with
  | JStr s =>
      match parse_timestamp W s with
      | Some t => Ok t
      | None => Err ValueError
      end
  | _ => Err TypeError
  end.

(** The class [[a-zA-Z0-9_]] of the regular expression of line 211. *)
Definition is_word (c : ascii) : bool :=
  let n := N_of_ascii c in
  ((97 <=? n) && (n <=? 122) || (65 <=? n) && (n <=? 90) ||
   (48 <=? n) && (n <=? 57) || (n =? 95))%N.

Definition slash_to_underscore (c : ascii) : ascii :=
  if Ascii.eqb c "/" then "_"%char else c.

(** [re.sub("[^a-zA-Z0-9_]", "", re.sub("/", "_", full_name))]. *)
Definition path_of (full_name : string) : string :=
  Str.filter is_word (Str.map slash_to_underscore full_name).

Definition placeholder : string := "https://127.0.0.1/".

(** Lines 220-230. *)
Definition normalize_minimum (d : obj) : obj :=
  match Obj.get "minimumbinaryninjaversion" d with
  | Some legacy =>
      Obj.del "minimumbinaryninjaversion"
        (Obj.set "minimumBinaryNinjaVersion"
           (if Py.isinstance_int legacy then legacy else JInt 0) d)
  | None =>
      match Obj.get "minimumBinaryNinjaVersion" d with
      | Some current =>
          if Py.isinstance_int current then d
          else Obj.set "minimumBinaryNinjaVersion" (JInt 0) d
      | None => Obj.set "minimumBinaryNinjaVersion" (JInt 0) d
      end
  end.

Definition default (k : string) (v : json) (d : obj) : obj :=
  if Obj.mem k d then d else Obj.set k v d.

(** Lines 217-218 and 232-240. *)
Definition normalize_schema (d : obj) : obj :=
  let d := match Obj.get "api" d with
           | Some a => if Py.isinstance_str a then Obj.set "api" (JArr [a]) d
                       else d
           | None => d
           end in
  let d := normalize_minimum d in
  let d := default "pluginmetadataversion" (JInt 2) d in
  let d := match Obj.get "maximumBinaryNinjaVersion" d with
           | Some m => if Py.isinstance_int m then d
                       else Obj.set "maximumBinaryNinjaVersion" (JInt 999999) d
           | None => Obj.set "maximumBinaryNinjaVersion" (JInt 999999) d
           end in
  let d := default "platforms" (JArr []) d in
  default "installinstructions" (JObj []) d.

(** Lines 188-245.  Once the assignment of line 193 has succeeded, [data]
    is a dict and the later subscripts cannot fail on it. *)
Definition finish_record (plugin : json) (name : string) (view_only : bool)
    (commit zipUrl shortUrl projectData releaseData data : json)
    (requirements_txt : string) : result json :=
  stamp <~ (if view_only then Py.getitem projectData "updated_at"
            else Py.getitem releaseData "published_at") ;;
  lastUpdated <~ timestamp_of stamp ;;
  d <~ Py.setitem data "lastUpdated" (JInt lastUpdated) ;;
  let d := Obj.set "projectUrl" (JStr (site ++ name)) d in
  let d := Obj.set "projectData" projectData d in
  (* data["projectData"]["updated_at"] = ...: the shared object changes *)
  projectData <~ Py.setitem projectData "updated_at"
                   (JStr (isoformat_utc W lastUpdated)) ;;
  let d := Obj.set "projectData" (JObj projectData) d in
  let d := Obj.set "authorUrl" (JStr (site ++ Str.before "/" name)) d in
  let d :=
    if view_only then
      Obj.set "view_only" (JBool true)
        (Obj.set "packageShortUrl" (JStr placeholder)
           (Obj.set "packageUrl" (JStr placeholder) d))
    else
      Obj.set "view_only" (JBool false)
        (Obj.set "packageShortUrl" shortUrl
           (Obj.set "packageUrl" zipUrl d)) in
  let d := Obj.set "dependencies" (JStr requirements_txt) d in
  full_name <~ Py.getitem (JObj projectData) "full_name" ;;
  path <~ match full_name with
          | JStr s => Ok (path_of s)
          | _ => Err TypeError
          end ;;
  let d := Obj.set "path" (JStr path) d in
  let d := Obj.set "commit" commit d in
  let d := normalize_schema d in
  has_subdir <~ Py.contains "subdir" plugin ;;
  d <~ (if has_subdir then
          sd <~ Py.getitem plugin "subdir" ;; Ok (Obj.set "subdir" sd d)
        else Ok d) ;;
  if view_only then
    m <~ Py.getitem (JObj d) "minimumBinaryNinjaVersion" ;;
    below <~ Py.lt m (JInt 6135) ;;
    Ok (JObj (if below then Obj.set "minimumBinaryNinjaVersion" (JInt 6135) d
              else d))
  else Ok (JObj d).

(** *** [getPluginJson] (lines 30-248) *)

(** The repository path, lines 41-248. *)
Definition resolve (plugin : json) (debug : bool) : M (option json) :=
  userAndProject <- getitem plugin "name" ;;
  name <- match userAndProject with
          | JStr s => ret s
          | _ => raise AttributeError   (* .split *)
          end ;;
  view_only <- liftR (flag "view_only" plugin) ;;
  auto_update <- liftR (flag "auto_update" plugin) ;;
  '(plugin, releaseData) <- resolve_release plugin name view_only auto_update ;;
  '(commit, zipUrl, shortUrl) <-
    (if view_only then ret (JNull, JNull, JStr "")
     else
       '(commit, zipUrl) <- resolve_commit plugin name ;;
       shortUrl <- shorten zipUrl ;;
       ret (commit, zipUrl, shortUrl)) ;;
  projectData <- fetch_project name ;;
  data <- fetch_descriptor plugin name view_only debug ;;
  requirements_txt <- fetch_requirements plugin name view_only ;;
  record <- liftR (finish_record plugin name view_only commit zipUrl shortUrl
                     projectData releaseData data requirements_txt) ;;
  when debug (n <- getitem plugin "name" ;;
              print ("Finished processing plugin: " ++ py_format n)) >>
  ret (Some record).

Definition getPluginJson (plugin : json) (debug : bool) : M (option json) :=
  call
    (when debug (n <- getitem plugin "name" ;;
                 print ("Processing plugin: " ++ py_format n)) >>
     has_site <- contains "site" plugin ;;
     if has_site then site_lookup plugin else resolve plugin debug).

(** *** [main] (lines 251-328) *)

(** Lines 15-23: the bar divides by [total]; its rendering on the standard
    output is not part of the model. *)
Definition printProgressBar (iteration total : nat) : M unit :=
  if Nat.eqb total 0 then raise ZeroDivisionError else ret tt.

(** Lines 271-275: the previous registry seeds the short-URL cache and
    gives the previous [lastUpdated] of every repository. *)
Fixpoint load_previous (records : list json) (oldPlugins : pydict)
    : M pydict :=
  match records with
  | [] => ret oldPlugins
  | plugin :: rest =>
      has <- contains "packageShortUrl" plugin ;;
      nonempty <- (if has then
                     s <- getitem plugin "packageShortUrl" ;;
                     n <- liftR (Py.len s) ;;
                     ret (0 <? n)%nat
                   else ret false) ;;
      when nonempty
        (v <- getitem plugin "packageShortUrl" ;;
         k <- getitem plugin "packageUrl" ;;
         shortUrls <- get_store ;;
         shortUrls' <- liftR (Py.dict_setitem shortUrls k v) ;;
         set_store shortUrls') >>
      lastUpdated <- getitem plugin "lastUpdated" ;;
      projectData <- getitem plugin "projectData" ;;
      full_name <- getitem projectData "full_name" ;;
      oldPlugins' <- liftR (Py.dict_setitem oldPlugins full_name lastUpdated) ;;
      load_previous rest oldPlugins'
  end.

(** Lines 279-283. *)
Fixpoint collect (entries : list json) (i total : nat) (allPlugins : pydict)
    (debug : bool) : M pydict :=
  match entries with
  | [] => ret allPlugins
  | plugin :: rest =>
      printProgressBar i total >>
      jsonData <- getPluginJson plugin debug ;;
      allPlugins' <- match jsonData with
                     | Some record =>
                         n <- getitem plugin "name" ;;
                         liftR (Py.dict_setitem allPlugins n record)
                     | None => ret allPlugins
                     end ;;
      collect rest (S i) total allPlugins' debug
  end.

(** Lines 290-307: returns [newPlugins], [updatedPlugins] and [newList]. *)
Fixpoint classify (items oldPlugins : pydict)
    (newPlugins updatedPlugins newList : list json)
    : M (list json * list json * list json) :=
  match items with
  | [] => ret (newPlugins, updatedPlugins, newList)
  | (name, pluginData) :: rest =>
      let newList := (newList ++ [name])%list in
      known <- liftR (Py.dict_contains name oldPlugins) ;;
      '(pluginIsNew, pluginIsUpdated) <-
        (if negb known then ret (true, false)
         else
           known' <- liftR (Py.dict_contains name oldPlugins) ;;
           if negb known' then ret (false, true)
           else
             lastUpdated <- getitem pluginData "lastUpdated" ;;
             previous <- liftR (Py.dict_getitem oldPlugins name) ;;
             later <- liftR (Py.gt lastUpdated previous) ;;
             ret (false, later)) ;;
      if pluginIsNew then
        classify rest oldPlugins (newPlugins ++ [name])%list updatedPlugins
          newList
      else if pluginIsUpdated then
        classify rest oldPlugins newPlugins (updatedPlugins ++ [name])%list
          newList
      else classify rest oldPlugins newPlugins updatedPlugins newList
  end.

(** Lines 308-310. *)
Definition removed (oldPlugins : pydict) (newList : list json) : list json :=
  List.filter (fun name => negb (Py.list_contains name newList))
    (List.map fst oldPlugins).

Definition string_of_nat (n : nat) : string :=
  NilZero.string_of_uint (Nat.to_uint n).

Definition tab : string := String "009"%char EmptyString.

(** Lines 317-325: one section of the report. *)
Definition report (title : string) (names : list json) : M unit :=
  print (string_of_nat (List.length names) ++ " " ++ title) >>
  fold_right (fun name k => print (tab ++ "- " ++ py_format name) >> k)
    (ret tt) names.

(** The result of a run: the registry written to [plugins.json] and the
    three lists of the report. *)
Record run : Type := {
  registry : list json;
  newPlugins : list json;
  updatedPlugins : list json;
  removedPlugins : list json
}.

(** Lines 267-275.  [previous] is the content of [plugins.json] when the
    file exists. *)
Definition startup (previous : option json) : M pydict :=
  set_store [] >>
  match previous with
  | Some document =>
      records <- iter document ;;
      load_previous records []
  | None => ret []
  end.

(** Lines 265-328.  [listing] is the content of the manifest.  The run
    ends with the registry written; the rendering of README.md that may
    follow is not part of the model. *)
Definition main (previous : option json) (listing : json) (debug : bool)
    : M run :=
  oldPlugins <- startup previous ;;
  entries <- iter listing ;;
  total <- liftR (Py.len listing) ;;
  allPlugins <- collect entries 0 total [] debug ;;
  printProgressBar total total >>
  '(new, updated, newList) <- classify allPlugins oldPlugins [] [] [] ;;
  let gone := removed oldPlugins newList in
  printProgressBar (List.length allPlugins) (List.length allPlugins) >>
  let allPluginsList := List.map snd allPlugins in
  report "New Plugins:" new >>
  report "Updated Plugins:" updated >>
  report "Removed Plugins:" gone >>
  print "Writing plugins.json" >>
  ret {| registry := allPluginsList; newPlugins := new;
         updatedPlugins := updated; removedPlugins := gone |}.

End Program.

(** ** Invariants and reference definitions *)

(** A well-formed dictionary: hashable keys, no two of them equal. *)
Fixpoint dict_wf (d : pydict) : bool :=
  match d with
  | [] => true
  | (k, _) :: d' =>
      Py.hashable k &&
      match Py.lookup k d' with Some _ => false | None => true end &&
      dict_wf d'
  end.

(** The value and the requests of a computation run on the empty
    dictionary; for a computation that ignores the dictionary these are
    its value and its requests on every dictionary. *)
Definition exec {A} (m : M A) : outcome A := fst (fst (m [])).
Definition trace {A} (m : M A) : list event := snd (m []).

(** [m] neither reads nor writes the [shortUrls] dictionary; when [strict],
    its only early return is [return None]. *)
Definition behaved {A} (strict : bool) (m : M A) : Prop :=
  (forall s, m s = (exec m, s, trace m)) /\
  (strict = true -> forall r, exec m = Returned r -> r = None).

(** The intermediate values of one pass through lines 41-186. *)
Record resolution : Type := {
  r_name : string;           (* plugin["name"] *)
  r_view_only : bool;
  r_auto_update : bool;
  r_plugin : json;           (* the entry, with the tag of the latest release *)
  r_release : json;          (* releaseData *)
  r_commit : json;
  r_zipUrl : json;
  r_shortUrl : json;
  r_project : json;          (* projectData *)
  r_data : json;             (* the descriptor, after lines 140-166 *)
  r_requirements : string
}.

(** Lines 41-124 ran to completion on the entry [plugin], with the
    dictionary [s]: release, commit, short URL and project metadata are
    those of [R]. *)
Definition locates (W : World) (plugin : json) (s : pydict)
    (R : resolution) : Prop :=
  Py.getitem plugin "name" = Ok (JStr (r_name R)) /\
  flag "view_only" plugin = Ok (r_view_only R) /\
  flag "auto_update" plugin = Ok (r_auto_update R) /\
  exec (resolve_release W plugin (r_name R) (r_view_only R) (r_auto_update R))
    = Normal (r_plugin R, r_release R) /\
  (if r_view_only R
   then r_commit R = JNull /\ r_zipUrl R = JNull /\ r_shortUrl R = JStr ""
   else exec (resolve_commit W (r_plugin R) (r_name R))
          = Normal (r_commit R, r_zipUrl R) /\
        exists t, shorten W (r_zipUrl R) s = (Normal (r_shortUrl R), s, t)) /\
  exec (fetch_project W (r_name R)) = Normal (r_project R).

(** Every step of lines 41-186 ran to completion and produced the values
    of [R]. *)
Definition resolves (W : World) (plugin : json) (debug : bool) (s : pydict)
    (R : resolution) : Prop :=
  locates W plugin s R /\
  exec (fetch_descriptor W (r_plugin R) (r_name R) (r_view_only R) debug)
    = Normal (r_data R) /\
  exec (fetch_requirements W (r_plugin R) (r_name R) (r_view_only R))
    = Normal (r_requirements R).

(** Lines 188-245 on the values of [R]. *)
Definition finish (W : World) (R : resolution) : result json :=
  finish_record W (r_plugin R) (r_name R) (r_view_only R) (r_commit R)
    (r_zipUrl R) (r_shortUrl R) (r_project R) (r_release R) (r_data R)
    (r_requirements R).

(** [m] leaves the [shortUrls] dictionary as it found it; when [strict],
    its only early return is [return None]. *)
Definition gentle {A} (strict : bool) (m : M A) : Prop :=
  forall s r s' t, m s = (r, s', t) ->
    s' = s /\ (strict = true -> forall x, r = Returned x -> x = None).

(** The minimum version a descriptor declares: the legacy key wins, a
    value that is not an integer counts as 0, no key at all as 0. *)
Definition declared_minimum (descriptor : obj) : json :=
  match Obj.get "minimumbinaryninjaversion" descriptor with
  | Some legacy => if Py.isinstance_int legacy then legacy else JInt 0
  | None =>
      match Obj.get "minimumBinaryNinjaVersion" descriptor with
      | Some current => if Py.isinstance_int current then current else JInt 0
      | None => JInt 0
      end
  end.

(** The path of a repository, character by character: a slash becomes an
    underscore, a letter, digit or underscore is kept, anything else is
    dropped. *)
Fixpoint path_spec (full_name : string) : string :=
  match full_name with
  | EmptyString => EmptyString
  | String c rest =>
      if Ascii.eqb c "/" then String "_" (path_spec rest)
      else if is_word c then String c (path_spec rest)
      else path_spec rest
  end.

Definition is_letter (c : ascii) : bool :=
  let n := N_of_ascii c in
  ((97 <=? n) && (n <=? 122) || (65 <=? n) && (n <=? 90))%N.

Definition is_digit (c : ascii) : bool :=
  let n := N_of_ascii c in ((48 <=? n) && (n <=? 57))%N.

Definition is_underscore (c : ascii) : bool := Ascii.eqb c "_".

(** Line 244: a value below 6135 is raised to it. *)
Definition floor_6135 (m : json) : json :=
  match Py.lt m (JInt 6135) with
  | Ok true => JInt 6135
  | _ => m
  end.

(** The diagnostic of line 144. *)
Definition invalid_json (pluginjson : string) : event :=
  EPrint (nl ++ nl ++ "Invalid json when parsing " ++ pluginjson ++ nl).

(** The pair that a record of the previous registry contributes to the
    short-URL cache: its [packageUrl] and [packageShortUrl], when the
    latter is not empty. *)
Definition contribution (record : json) : option (json * json) :=
  match Py.getitem record "packageShortUrl", Py.getitem record "packageUrl" with
  | Ok short, Ok url =>
      match Py.len short with
      | Ok n => if (0 <? n)%nat then Some (url, short) else None
      | Err _ => None
      end
  | _, _ => None
  end.

(** The cache seeded from the records of the previous registry, in order. *)
Definition seed_of (records : list json) : pydict :=
  fold_left (fun cache record =>
               match contribution record with
               | Some (url, short) => Py.store url short cache
               | None => cache
               end) records [].

(** ** Concrete worlds

    A small hosting service, used to run the program on explicit inputs.
    File contents are named rather than encoded: base64 and UTF-8 decoding
    are the identity, and [json.loads] reads the table [docs]. *)
Module Scenario.

Fixpoint assoc {A} (k : string) (l : list (string * A)) : option A :=
  match l with
  | [] => None
  | (k', v) :: l' => if String.eqb k' k then Some v else assoc k l'
  end.

Definition not_found : json := JObj [("message", JStr "Not Found")].

Definition file (name : string) : result json :=
  Ok (JObj [("encoding", JStr "base64"); ("content", JStr name)]).

Definition viewer : string := api "acme/viewer".
Definition tool : string := api "acme/tool".
Definition legacy : string := api "acme/legacy".
Definition broken : string := api "acme/broken".
Definition index : string := "https://plugins.example/index.json".
Definition tool_zip : string := tool ++ "/zipball/v1".

Definition mirror : json :=
  JObj [("name", JStr "Mirror"); ("path", JStr "mirror-1.0");
        ("commit", JStr "deadbeef");
        ("packageUrl", JStr "https://plugins.example/mirror.zip");
        ("packageShortUrl", JStr "https://plugins.example/m");
        ("minimumBinaryNinjaVersion", JInt 10)].

Definition pages : list (string * result json) :=
  [ (viewer, Ok (JObj [("full_name", JStr "acme/viewer");
                       ("updated_at", JStr "2024-01-01T00:00:00Z")]));
    (viewer ++ "/contents/plugin.json", file "viewer.json");
    (api "Acme/Viewer", Ok (JObj [("full_name", JStr "acme/viewer");
                                  ("updated_at", JStr "2024-01-01T00:00:00Z")]));
    (api "Acme/Viewer" ++ "/contents/plugin.json", file "viewer.json");
    (tool, Ok (JObj [("full_name", JStr "acme/tool");
                     ("updated_at", JStr "2024-03-01T00:00:00Z")]));
    (tool ++ "/releases/tags/v1",
     Ok (JObj [("tag_name", JStr "v1");
               ("published_at", JStr "2024-02-01T00:00:00Z")]));
    (tool ++ "/tags",
     Ok (JArr [JObj [("name", JStr "v0");
                     ("commit", JObj [("sha", JStr "0000000")]);
                     ("zipball_url", JStr (tool ++ "/zipball/v0"))];
               JObj [("name", JStr "v1");
                     ("commit", JObj [("sha", JStr "abc1234")]);
                     ("zipball_url", JStr tool_zip)]]));
    (tool ++ "/contents/plugin.json?ref=v1", file "tool.json");
    (tool ++ "/contents/README.md?ref=v1", file "The tool, at length.");
    (tool ++ "/contents/extras/plugin.json?ref=v1", file "extras.json");
    (legacy, Ok (JObj [("full_name", JStr "acme/legacy");
                       ("updated_at", JStr "2024-01-01T00:00:00Z")]));
    (legacy ++ "/contents/plugin.json", file "legacy.json");
    (legacy ++ "/contents/README.md", file "The legacy plugin, at length.");
    (broken, Ok (JObj [("full_name", JStr "acme/broken");
                       ("updated_at", JStr "2024-01-01T00:00:00Z")]));
    (broken ++ "/contents/plugin.json", file "broken.json");
    (index, Ok (JArr [mirror])) ].

Definition docs : list (string * json) :=
  [ ("viewer.json", JObj [("name", JStr "Viewer")]);
    ("tool.json", JObj [("name", JStr "Tool");
                        ("longdescription", JStr "A tool.");
                        ("minimumbinaryninjaversion", JInt 3000)]);
    ("extras.json", JObj [("name", JStr "Extras");
                          ("minimumbinaryninjaversion", JStr "3000")]);
    ("legacy.json",
     JObj [("plugin", JObj [("name", JStr "Legacy");
                            ("longdescription", JStr "Old.")])]) ].

Definition times : list (string * Z) :=
  [ ("2024-01-01T00:00:00Z", 1704067200%Z);
    ("2024-02-01T00:00:00Z", 1706745600%Z);
    ("2024-03-01T00:00:00Z", 1709251200%Z) ].

(** The world with the shortening service configured as [env] and
    answering [answer] to every request. *)
Definition world (env : option string) (answer : result json) : World :=
  {| http_get url := match assoc url pages with
                     | Some response => response
                     | None => Ok not_found
                     end;
     shortener_post _ _ := answer;
     URL_SHORTENER := env;
     b64decode content := Some content;
     utf8_decode bytes := Some bytes;
     json_loads text := assoc text docs;
     parse_timestamp stamp := assoc stamp times;
     isoformat_utc t := "@" ++ NilZero.string_of_int (Z.to_int t);
     py_repr _ := "?" |}.

(** No shortening service. *)
Definition plain : World := world None (Err (OtherError "no service")).

Definition service : string := "https://v35.us/api".

(** A service that issues short URLs. *)
Definition shortening : World :=
  world (Some service)
        (Ok (JObj [("error", JStr ""); ("url_short", JStr "https://v35.us/t1")])).

(** A service that refuses. *)
Definition refusing : World :=
  world (Some service) (Ok (JObj [("error", JStr "quota exceeded")])).

Definition viewer_entry : json :=
  JObj [("name", JStr "acme/viewer"); ("view_only", JBool true)].

Definition renamed_entry : json :=
  JObj [("name", JStr "Acme/Viewer"); ("view_only", JBool true)].

Definition tool_entry : json :=
  JObj [("name", JStr "acme/tool"); ("tag", JStr "v1")].

Definition extras_entry : json :=
  JObj [("name", JStr "acme/tool"); ("tag", JStr "v1");
        ("subdir", JStr "extras")].

Definition legacy_entry : json :=
  JObj [("name", JStr "acme/legacy"); ("view_only", JBool true)].

Definition missing_entry : json :=
  JObj [("name", JStr "acme/tool"); ("tag", JStr "v9")].

Definition broken_entry : json :=
  JObj [("name", JStr "acme/broken"); ("view_only", JBool true)].

Definition mirror_entry : json :=
  JObj [("name", JStr "acme/tool"); ("tag", JStr "v1"); ("site", JStr index)].

Definition mirror_view_entry : json :=
  JObj [("name", JStr "acme/viewer"); ("view_only", JBool true);
        ("site", JStr index)].

Definition record_of (x : outcome (option json) * pydict * list event)
    : json :=
  match x with
  | (Normal (Some r), _, _) => r
  | _ => JNull
  end.

Definition viewer_record : json :=
  Eval vm_compute in record_of (getPluginJson plain viewer_entry false []).

Definition tool_record : json :=
  Eval vm_compute in record_of (getPluginJson plain tool_entry false []).

Definition legacy_record : json :=
  Eval vm_compute in record_of (getPluginJson plain legacy_entry false []).

Definition sample_new : pydict :=
  [ (JStr "acme/viewer", JObj [("lastUpdated", JInt 1704067200)]);
    (JStr "acme/tool", JObj [("lastUpdated", JInt 1706745600)]) ].

Definition sample_old : pydict :=
  [ (JStr "acme/tool", JInt 1700000000);
    (JStr "acme/gone", JInt 1600000000) ].

End Scenario.

(** The value of a run, when it completes. *)
Definition value {A} (x : outcome A * pydict * list event) : option A :=
  match x with
  | (Normal a, _, _) => Some a
  | _ => None
  end.

(** The exception of a run, when it aborts. *)
Definition raised {A} (x : outcome A * pydict * list event) : option exn :=
  match x with
  | (Raised e, _, _) => Some e
  | _ => None
  end.

(** The requests sent to the shortening service for [zipUrl]. *)
Definition submissions (zipUrl : json) (events : list event) : nat :=
  List.length
    (List.filter
       (fun ev => match ev with
                  | EPost _ (JObj [(_, _); (_, long)]) => Py.eq long zipUrl
                  | _ => false
                  end) events).

(** * Properties *)

(** ** Objects and dictionaries *)

Lemma get_set k k' v d :
  Obj.get k (Obj.set k' v d) = if String.eqb k' k then Some v else Obj.get k d.
Proof.
  induction d as [|[k0 v0] d IH]; simpl.
  - destruct (String.eqb k' k); reflexivity.
  - destruct (String.eqb k0 k') eqn:E; simpl.
    + apply String.eqb_eq in E. subst k0.
      destruct (String.eqb k' k); reflexivity.
    + destruct (String.eqb k0 k) eqn:E2; [|exact IH].
      apply String.eqb_eq in E2. subst k0.
      rewrite String.eqb_sym in E. rewrite E. reflexivity.
Qed.

Lemma get_del k k' d :
  Obj.get k (Obj.del k' d) = if String.eqb k' k then None else Obj.get k d.
Proof.
  induction d as [|[k0 v0] d IH]; simpl.
  - destruct (String.eqb k' k); reflexivity.
  - destruct (String.eqb k0 k') eqn:E; simpl.
    + apply String.eqb_eq in E. subst k0. rewrite IH.
      destruct (String.eqb k' k); reflexivity.
    + rewrite IH. destruct (String.eqb k0 k) eqn:E2; [|reflexivity].
      apply String.eqb_eq in E2. subst k0.
      rewrite String.eqb_sym in E. rewrite E. reflexivity.
Qed.

Lemma get_default k k' v d :
  Obj.get k (default k' v d) =
  if Obj.mem k' d then Obj.get k d
  else if String.eqb k' k then Some v else Obj.get k d.
Proof.
  unfold default. destruct (Obj.mem k' d); [reflexivity|apply get_set].
Qed.

(** [==] is an equivalence on hashable values. *)
Lemma eq_refl_hashable a : Py.hashable a = true -> Py.eq a a = true.
Proof.
  destruct a; simpl; try discriminate; intros _;
    auto using Qeq_bool_refl, String.eqb_refl.
Qed.

Lemma eq_sym_hashable a b :
  Py.hashable a = true -> Py.hashable b = true -> Py.eq a b = Py.eq b a.
Proof.
  destruct a, b; simpl; try discriminate; intros _ _;
    auto using Qeq_bool_comm, String.eqb_sym.
Qed.

Lemma eq_trans_hashable a b c :
  Py.hashable a = true -> Py.hashable b = true -> Py.hashable c = true ->
  Py.eq a b = true -> Py.eq b c = true -> Py.eq a c = true.
Proof.
  destruct a, b, c; simpl; try discriminate; intros _ _ _ H1 H2;
    try reflexivity; try discriminate;
    try (eapply Qeq_bool_trans; eassumption).
  apply String.eqb_eq in H1, H2. subst. apply String.eqb_refl.
Qed.


Lemma lookup_In k v d :
  In (k, v) d -> Py.hashable k = true -> Py.lookup k d <> None.
Proof.
  induction d as [|[k0 v0] d IH]; simpl; [tauto|].
  intros [E|HI] Hk.
  - injection E as -> ->. rewrite eq_refl_hashable by assumption. discriminate.
  - destruct (Py.eq k0 k); [discriminate|auto].
Qed.

Lemma lookup_list_contains k d :
  Py.list_contains k (List.map fst d) =
  match Py.lookup k d with Some _ => true | None => false end.
Proof.
  induction d as [|[k0 v0] d IH]; simpl; [reflexivity|].
  destruct (Py.eq k0 k); simpl; [reflexivity|exact IH].
Qed.

Lemma dict_wf_keys d k v :
  dict_wf d = true -> In (k, v) d -> Py.hashable k = true.
Proof.
  induction d as [|[k0 v0] d IH]; simpl; [tauto|].
  intros H [E|HI].
  - injection E as -> ->.
    apply andb_prop in H. destruct H as [H _].
    apply andb_prop in H. tauto.
  - apply andb_prop in H. destruct H as [_ H]. auto.
Qed.

Lemma dict_wf_NoDup d : dict_wf d = true -> NoDup (List.map fst d).
Proof.
  induction d as [|[k0 v0] d IH]; simpl; intros H; constructor.
  - apply andb_prop in H. destruct H as [H _].
    apply andb_prop in H. destruct H as [Hk Hl].
    intros HI. apply in_map_iff in HI. destruct HI as [[k v] [E HI]].
    simpl in E. subst k.
    destruct (Py.lookup k0 d) eqn:L; [discriminate|].
    exact (lookup_In _ _ _ HI Hk L).
  - apply andb_prop in H. destruct H as [_ H]. auto.
Qed.

(** [d[k] = v] keeps a dictionary well formed. *)
Lemma lookup_store k k' v d :
  Py.hashable k = true -> Py.hashable k' = true -> dict_wf d = true ->
  Py.lookup k (Py.store k' v d) =
  if Py.eq k' k then Some v else Py.lookup k d.
Proof.
  intros Hk Hk'. induction d as [|[k0 v0] d IH]; simpl; intros Hd.
  - reflexivity.
  - apply andb_prop in Hd. destruct Hd as [Hd Hd'].
    apply andb_prop in Hd. destruct Hd as [Hk0 Hl].
    destruct (Py.eq k0 k') eqn:E; simpl.
    + destruct (Py.eq k0 k) eqn:E2.
      * rewrite (eq_trans_hashable k' k0 k); auto.
        rewrite eq_sym_hashable; auto.
      * destruct (Py.eq k' k) eqn:E3; [|reflexivity].
        rewrite (eq_trans_hashable k0 k' k) in E2; auto. discriminate.
    + destruct (Py.eq k0 k) eqn:E2; [|auto].
      destruct (Py.eq k' k) eqn:E3; [|reflexivity].
      rewrite (eq_trans_hashable k0 k k') in E; auto; [discriminate|].
      rewrite eq_sym_hashable; auto.
Qed.

Lemma store_wf k v d :
  Py.hashable k = true -> dict_wf d = true -> dict_wf (Py.store k v d) = true.
Proof.
  intros Hk. induction d as [|[k0 v0] d IH]; simpl; intros Hd.
  - rewrite Hk. reflexivity.
  - apply andb_prop in Hd. destruct Hd as [Hd Hd'].
    apply andb_prop in Hd. destruct Hd as [Hk0 Hl].
    destruct (Py.eq k0 k) eqn:E; simpl.
    + rewrite Hk0, Hd'. destruct (Py.lookup k0 d); [discriminate|reflexivity].
    + rewrite Hk0, IH by assumption.
      rewrite lookup_store by assumption.
      rewrite eq_sym_hashable, E by assumption.
      destruct (Py.lookup k0 d); [discriminate|reflexivity].
Qed.

(** ** The monad, pointwise *)

Lemma bind_ret {A B} (a : A) (f : A -> M B) s : bind (ret a) f s = f a s.
Proof. unfold bind, ret. destruct (f a s) as [[? ?] ?]. reflexivity. Qed.

Lemma bind_raise {A B} e (f : A -> M B) s :
  bind (raise e) f s = (Raised e, s, []).
Proof. reflexivity. Qed.

Lemma bind_return {A B} r (f : A -> M B) s :
  bind (return_ r) f s = (Returned r, s, []).
Proof. reflexivity. Qed.

Lemma bind_Ok {A B} (a : A) (f : A -> M B) s :
  bind (liftR (Ok a)) f s = f a s.
Proof. apply bind_ret. Qed.

Lemma bind_Err {A B} e (f : A -> M B) s :
  bind (liftR (Err e)) f s = (Raised e, s, []).
Proof. reflexivity. Qed.

Lemma bind_emit {B} ev (f : unit -> M B) s :
  bind (emit ev) f s =
  match f tt s with (r, s', t) => (r, s', ev :: t) end.
Proof. reflexivity. Qed.

Lemma bind_bind {A B C} (m : M A) (f : A -> M B) (g : B -> M C) s :
  bind (bind m f) g s = bind m (fun a => bind (f a) g) s.
Proof.
  unfold bind. destruct (m s) as [[[a| |] s1] t1]; try reflexivity.
  destruct (f a s1) as [[[b| |] s2] t2]; try reflexivity.
  destruct (g b s2) as [[r s3] t3]. rewrite app_assoc. reflexivity.
Qed.

Ltac mnorm_in H :=
  repeat (first [ rewrite bind_bind in H | rewrite bind_ret in H
                | rewrite bind_Ok in H | rewrite bind_Err in H
                | rewrite bind_raise in H | rewrite bind_return in H ];
          cbn [negb andb orb] in H).

Ltac mnorm :=
  repeat (first [ rewrite bind_bind | rewrite bind_ret
                | rewrite bind_Ok | rewrite bind_Err
                | rewrite bind_raise | rewrite bind_return ];
          cbn [negb andb orb]).

(** ** Claim C3: the registry diff *)

Lemma classify_inv items old :
  forall n u l s n' u' l' s' t,
  classify items old n u l s = (Normal (n', u', l'), s', t) ->
  s' = s /\ t = [] /\ l' = (l ++ List.map fst items)%list /\
  (forall x, In x n' <->
     In x n \/ exists pd, In (x, pd) items /\ Py.lookup x old = None) /\
  (forall x, In x u' <->
     In x u \/ exists pd lu prev,
       In (x, pd) items /\ Py.lookup x old = Some prev /\
       Py.getitem pd "lastUpdated" = Ok lu /\ Py.gt lu prev = Ok true).
Proof.
  induction items as [|[name pd] rest IH]; simpl; intros n u l s n' u' l' s' t H.
  - injection H as <- <- <- <- <-. rewrite app_nil_r.
    refine (conj eq_refl (conj eq_refl (conj eq_refl (conj _ _)))).
    + intros x. split; [tauto|]. intros [?|[? [[] _]]]; assumption.
    + intros x. split; [tauto|].
      intros [?|(? & ? & ? & [] & _)]; assumption.
  - unfold Py.dict_contains in H.
    destruct (Py.hashable name) eqn:Hh; [|discriminate H].
    mnorm_in H.
    destruct (Py.lookup name old) as [prev|] eqn:L; cbn [negb] in H.
    + mnorm_in H. cbn [negb] in H. unfold getitem in H.
      destruct (Py.getitem pd "lastUpdated") as [lu|] eqn:G;
        [|mnorm_in H; discriminate H].
      mnorm_in H. unfold Py.dict_getitem in H.
      rewrite Hh, L in H. mnorm_in H.
      destruct (Py.gt lu prev) as [later|] eqn:C;
        [|mnorm_in H; discriminate H].
      mnorm_in H.
      destruct later.
      * apply IH in H. destruct H as (-> & -> & -> & Hn & Hu).
        rewrite <- app_assoc.
        refine (conj eq_refl (conj eq_refl (conj eq_refl (conj _ _)))).
        -- intros x. rewrite Hn. split; intros [?|(pd' & HI & Hl)]; auto.
           ++ right. exists pd'. simpl. auto.
           ++ destruct HI as [E|HI]; [|right; exists pd'; auto].
              injection E as -> ->. congruence.
        -- intros x. rewrite Hu, in_app_iff. simpl.
           split.
           ++ intros [[?|[<-|[]]]|(pd' & lu' & prev' & HI & Hx)]; auto.
              ** right. exists pd, lu, prev. auto.
              ** right. exists pd', lu', prev'. tauto.
           ++ intros [?|(pd' & lu' & prev' & [E|HI] & Hx)]; auto.
              ** injection E as -> ->. auto.
              ** right. exists pd', lu', prev'. tauto.
      * apply IH in H. destruct H as (-> & -> & -> & Hn & Hu).
        rewrite <- app_assoc.
        refine (conj eq_refl (conj eq_refl (conj eq_refl (conj _ _)))).
        -- intros x. rewrite Hn. split; intros [?|(pd' & HI & Hl)]; auto.
           ++ right. exists pd'. simpl. auto.
           ++ destruct HI as [E|HI]; [|right; exists pd'; auto].
              injection E as -> ->. congruence.
        -- intros x. rewrite Hu. split.
           ++ intros [?|(pd' & lu' & prev' & HI & Hx)]; auto.
              right. exists pd', lu', prev'. simpl. tauto.
           ++ intros [?|(pd' & lu' & prev' & [E|HI] & Hx)]; auto.
              ** injection E as -> ->.
                 destruct Hx as (Hx1 & Hx2 & Hx3). congruence.
              ** right. exists pd', lu', prev'. tauto.
    + mnorm_in H.
      apply IH in H. destruct H as (-> & -> & -> & Hn & Hu).
      rewrite <- app_assoc.
        refine (conj eq_refl (conj eq_refl (conj eq_refl (conj _ _)))).
      * intros x. rewrite Hn, in_app_iff. simpl. split.
        -- intros [[?|[<-|[]]]|(pd' & HI & Hl)]; auto.
           ++ right. exists pd. auto.
           ++ right. exists pd'. auto.
        -- intros [?|(pd' & [E|HI] & Hl)]; auto.
           ++ injection E as -> ->. auto.
           ++ right. exists pd'. auto.
      * intros x. rewrite Hu. split.
        -- intros [?|(pd' & lu' & prev' & HI & Hx)]; auto.
           right. exists pd', lu', prev'. simpl. tauto.
        -- intros [?|(pd' & lu' & prev' & [E|HI] & Hx)]; auto.
           ++ injection E as -> ->. destruct Hx as (Hx1 & _). congruence.
           ++ right. exists pd', lu', prev'. tauto.
Qed.

Lemma gt_int a b : Py.gt (JInt a) (JInt b) = Ok (b <? a)%Z.
Proof.
  simpl. unfold Qle_bool. simpl. rewrite !Z.mul_1_r.
  rewrite Z.ltb_antisym. reflexivity.
Qed.

Lemma lookup_Some_In k v d :
  Py.lookup k d = Some v -> exists k', In (k', v) d /\ Py.eq k' k = true.
Proof.
  induction d as [|[k0 v0] d IH]; simpl; [discriminate|].
  destruct (Py.eq k0 k) eqn:E.
  - intros H. injection H as ->. exists k0. auto.
  - intros H. destruct (IH H) as (k' & HI & E'). exists k'. auto.
Qed.

Lemma classify_total items old :
  (forall name pd, In (name, pd) items ->
     Py.hashable name = true /\
     exists z, Py.getitem pd "lastUpdated" = Ok (JInt z)) ->
  (forall name v, In (name, v) old -> exists z, v = JInt z) ->
  forall n u l s, exists n' u' l',
    classify items old n u l s = (Normal (n', u', l'), s, []).
Proof.
  intros Hitems Hold.
  induction items as [|[name pd] rest IH]; simpl; intros n u l s.
  - exists n, u, l. reflexivity.
  - destruct (Hitems name pd (or_introl eq_refl)) as (Hh & z & Hz).
    assert (Hrest : forall name pd, In (name, pd) rest ->
              Py.hashable name = true /\
              exists z, Py.getitem pd "lastUpdated" = Ok (JInt z))
      by (intros; apply Hitems; right; assumption).
    specialize (IH Hrest).
    unfold Py.dict_contains, Py.dict_getitem, getitem. rewrite Hh, Hz.
    destruct (Py.lookup name old) as [prev|] eqn:L; cbn [negb].
    + destruct (lookup_Some_In _ _ _ L) as (k' & HI & _).
      destruct (Hold _ _ HI) as (p & ->).
      destruct (p <? z)%Z eqn:C.
      * destruct (IH n (u ++ [name])%list (l ++ [name])%list s)
          as (n' & u' & l' & E).
        exists n', u', l'. mnorm. rewrite gt_int, C. mnorm. exact E.
      * destruct (IH n u (l ++ [name])%list s) as (n' & u' & l' & E).
        exists n', u', l'. mnorm. rewrite gt_int, C. mnorm. exact E.
    + destruct (IH (n ++ [name])%list u (l ++ [name])%list s)
        as (n' & u' & l' & E).
      exists n', u', l'. mnorm. exact E.
Qed.

(** Claim C3.  For the two dictionaries of [main], [allPlugins] (the
    records resolved in this run, by manifest name) and [oldPlugins] (the
    previous [lastUpdated], by repository name): a name is reported new
    exactly when it is a key of [allPlugins] absent from [oldPlugins],
    updated exactly when it is a key of both and its [lastUpdated] is
    greater ([>]) than the previous one, removed exactly when it is a key
    of [oldPlugins] absent from [allPlugins]; the removed list has no
    duplicate, so such a key is listed exactly once, and no name is in two
    of the lists.  When every [lastUpdated] is an integer the
    classification completes. *)
Theorem C3_registry_diff (allPlugins oldPlugins : pydict) :
  dict_wf allPlugins = true ->
  dict_wf oldPlugins = true ->
  (forall s new updated newList s' t,
     classify allPlugins oldPlugins [] [] [] s
       = (Normal (new, updated, newList), s', t) ->
     let gone := removed oldPlugins newList in
     (forall name, In name new <->
        In name (List.map fst allPlugins) /\
        Py.lookup name oldPlugins = None) /\
     (forall name, In name updated <->
        exists pd lu prev,
          In (name, pd) allPlugins /\
          Py.lookup name oldPlugins = Some prev /\
          Py.getitem pd "lastUpdated" = Ok lu /\
          Py.gt lu prev = Ok true) /\
     (forall name, In name gone <->
        In name (List.map fst oldPlugins) /\
        Py.lookup name allPlugins = None) /\
     NoDup gone /\
     (forall name, ~ (In name new /\ In name updated)) /\
     (forall name, ~ (In name new /\ In name gone)) /\
     (forall name, ~ (In name updated /\ In name gone))) /\
  ((forall name pd, In (name, pd) allPlugins ->
      exists z, Py.getitem pd "lastUpdated" = Ok (JInt z)) ->
   (forall name v, In (name, v) oldPlugins -> exists z, v = JInt z) ->
   forall s, exists new updated newList,
     classify allPlugins oldPlugins [] [] [] s
       = (Normal (new, updated, newList), s, [])).
Proof.
  intros Hall Hold. split.
  - intros s new updated newList s' t H gone.
    apply classify_inv in H. destruct H as (_ & _ & HL & Hn & Hu).
    simpl in HL.
    assert (Hgone : forall name, In name gone <->
              In name (List.map fst oldPlugins) /\
              Py.lookup name allPlugins = None).
    { intros name. unfold gone, removed. rewrite filter_In. subst newList.
      rewrite lookup_list_contains.
      destruct (Py.lookup name allPlugins); simpl; intuition congruence. }
    assert (Hnew : forall name, In name new <->
              In name (List.map fst allPlugins) /\
              Py.lookup name oldPlugins = None).
    { intros name. rewrite Hn, in_map_iff. split.
      - intros [[]|(pd & HI & Hl)]. split; [exists (name, pd)|]; auto.
      - intros [([k pd] & E & HI) Hl]. simpl in E. subst k.
        right. exists pd. auto. }
    assert (Hupd : forall name, In name updated <->
              exists pd lu prev,
                In (name, pd) allPlugins /\
                Py.lookup name oldPlugins = Some prev /\
                Py.getitem pd "lastUpdated" = Ok lu /\
                Py.gt lu prev = Ok true).
    { intros name. rewrite Hu. split; [intros [[]|?]; assumption|auto]. }
    refine (conj Hnew (conj Hupd (conj Hgone (conj _ (conj _ (conj _ _)))))).
    + unfold gone, removed. apply NoDup_filter, dict_wf_NoDup, Hold.
    + intros name [H1 H2]. apply Hnew in H1. apply Hupd in H2.
      destruct H1 as [_ H1]. destruct H2 as (? & ? & ? & _ & H2 & _).
      congruence.
    + intros name [H1 H2]. apply Hnew in H1. apply Hgone in H2.
      destruct H1 as [_ H1]. destruct H2 as [H2 _].
      apply in_map_iff in H2. destruct H2 as ([k v] & E & HI).
      simpl in E. subst k.
      exact (lookup_In _ _ _ HI (dict_wf_keys _ _ _ Hold HI) H1).
    + intros name [H1 H2]. apply Hupd in H1. apply Hgone in H2.
      destruct H1 as (pd & ? & ? & HI & _). destruct H2 as [_ H2].
      exact (lookup_In _ _ _ HI (dict_wf_keys _ _ _ Hall HI) H2).
  - intros Hi Ho s. apply classify_total; [|assumption].
    intros name pd HI. split; [exact (dict_wf_keys _ _ _ Hall HI)|eauto].
Qed.

(** ** Computations that ignore the dictionary *)

Section Behaved.

Context {A : Type} (strict : bool).

Lemma behaved_ret (a : A) : behaved strict (ret a).
Proof. split; [reflexivity|discriminate]. Qed.

Lemma behaved_raise e : behaved strict (@raise A e).
Proof. split; [reflexivity|discriminate]. Qed.

Lemma behaved_return_None : behaved strict (@return_ A None).
Proof.
  split; [reflexivity|]. intros _ r H. injection H as <-. reflexivity.
Qed.

Lemma behaved_return r : behaved false (@return_ A r).
Proof. split; [reflexivity|discriminate]. Qed.

Lemma behaved_liftR (r : result A) : behaved strict (liftR r).
Proof. destruct r; [apply behaved_ret|apply behaved_raise]. Qed.

Lemma behaved_bind {B} (m : M B) (f : B -> M A) :
  behaved strict m -> (forall b, behaved strict (f b)) ->
  behaved strict (bind m f).
Proof.
  intros [Hm Hr] Hf. split.
  - intros s. unfold exec, trace, bind. rewrite (Hm s), (Hm []).
    destruct (exec m) as [b| |]; try reflexivity.
    destruct (Hf b) as [Hb _]. rewrite (Hb s), (Hb []). reflexivity.
  - intros Hs r. unfold exec at 1, bind. rewrite (Hm []).
    destruct (exec m) as [b| |] eqn:E; simpl.
    + destruct (Hf b) as [Hb Hbr]. rewrite (Hb []). simpl. auto.
    + intros H. injection H as <-. eauto.
    + discriminate.
Qed.

Lemma behaved_catch (m : M A) (h : exn -> M A) :
  behaved strict m -> (forall e, behaved strict (h e)) ->
  behaved strict (catch m h).
Proof.
  intros [Hm Hr] Hh. split.
  - intros s. unfold exec, trace, catch. rewrite (Hm s), (Hm []).
    destruct (exec m) as [b| |e]; try reflexivity.
    destruct (Hh e) as [He _]. rewrite (He s), (He []). reflexivity.
  - intros Hs r. unfold exec at 1, catch. rewrite (Hm []).
    destruct (exec m) as [b| |e] eqn:E; simpl.
    + discriminate.
    + intros H. injection H as <-. eauto.
    + destruct (Hh e) as [He Her]. rewrite (He []). simpl. auto.
Qed.

End Behaved.

Lemma behaved_emit strict ev : behaved strict (emit ev).
Proof. split; [reflexivity|discriminate]. Qed.

Ltac behaved_step :=
  first
    [ apply behaved_ret | apply behaved_raise | apply behaved_return_None
    | apply behaved_return | apply behaved_emit | apply behaved_liftR
    | apply behaved_bind; [|intros]
    | apply behaved_catch; [|intros]
    | assumption
    | match goal with
      | |- behaved _ (match ?x with _ => _ end) => destruct x
      | |- behaved _ (if ?x then _ else _) => destruct x
      end
    | progress unfold print, getitem, contains, iter, getfile, when, try_http ].

Ltac behaved := repeat behaved_step.

Create HintDb behaved.

Lemma behaved_b64 W strict c : behaved strict (b64 W c).
Proof. unfold b64. behaved. Qed.
#[export] Hint Resolve behaved_b64 : behaved.

Lemma behaved_b64_text W strict c : behaved strict (b64_text W c).
Proof. unfold b64_text. behaved; auto with behaved. Qed.
#[export] Hint Resolve behaved_b64_text : behaved.

Lemma behaved_tag_ref W strict plugin : behaved strict (tag_ref W plugin).
Proof. unfold tag_ref. behaved. Qed.
#[export] Hint Resolve behaved_tag_ref : behaved.

Lemma behaved_contents_url W strict plugin name vo path :
  behaved strict (contents_url W plugin name vo path).
Proof. unfold contents_url. behaved; auto with behaved. Qed.
#[export] Hint Resolve behaved_contents_url : behaved.

Lemma behaved_resolve_release W strict plugin name vo au :
  behaved strict (resolve_release W plugin name vo au).
Proof. unfold resolve_release. behaved; auto with behaved. Qed.
#[export] Hint Resolve behaved_resolve_release : behaved.

Lemma behaved_find_tag strict plugin tags :
  behaved strict (find_tag plugin tags).
Proof. induction tags; simpl; behaved. Qed.
#[export] Hint Resolve behaved_find_tag : behaved.

Lemma behaved_resolve_commit W strict plugin name :
  behaved strict (resolve_commit W plugin name).
Proof.
  unfold resolve_commit. behaved; auto with behaved.
Qed.
#[export] Hint Resolve behaved_resolve_commit : behaved.

Lemma behaved_fetch_project W strict name :
  behaved strict (fetch_project W name).
Proof. unfold fetch_project. behaved. Qed.
#[export] Hint Resolve behaved_fetch_project : behaved.

Lemma behaved_descriptor_url W strict plugin name vo :
  behaved strict (descriptor_url W plugin name vo).
Proof. unfold descriptor_url. behaved; auto with behaved. Qed.
#[export] Hint Resolve behaved_descriptor_url : behaved.

Lemma behaved_readme_loop W strict plugin name vo data files :
  behaved strict (readme_loop W plugin name vo data files).
Proof.
  induction files; simpl; behaved; auto with behaved.
Qed.
#[export] Hint Resolve behaved_readme_loop : behaved.

Lemma behaved_readme_backfill W strict plugin name vo data :
  behaved strict (readme_backfill W plugin name vo data).
Proof. unfold readme_backfill. behaved; auto with behaved. Qed.
#[export] Hint Resolve behaved_readme_backfill : behaved.

Lemma behaved_needs_readme strict data : behaved strict (needs_readme data).
Proof. unfold needs_readme. behaved. Qed.
#[export] Hint Resolve behaved_needs_readme : behaved.

Lemma behaved_decode_descriptor W strict url content :
  behaved strict (decode_descriptor W url content).
Proof. unfold decode_descriptor. behaved; auto with behaved. Qed.
#[export] Hint Resolve behaved_decode_descriptor : behaved.

Lemma behaved_fetch_descriptor W strict plugin name vo debug :
  behaved strict (fetch_descriptor W plugin name vo debug).
Proof.
  unfold fetch_descriptor. behaved; auto with behaved.
Qed.
#[export] Hint Resolve behaved_fetch_descriptor : behaved.

Lemma behaved_fetch_requirements W strict plugin name vo :
  behaved strict (fetch_requirements W plugin name vo).
Proof.
  unfold fetch_requirements. behaved; auto with behaved.
Qed.
#[export] Hint Resolve behaved_fetch_requirements : behaved.


Lemma behaved_site_loop plugin items : behaved false (site_loop plugin items).
Proof. revert plugin. induction items; simpl; intros; behaved; auto. Qed.

Lemma behaved_site_lookup W plugin : behaved false (site_lookup W plugin).
Proof. unfold site_lookup. behaved; auto using behaved_site_loop. Qed.

Lemma bind_behaved {A B} strict (m : M A) (f : A -> M B) s :
  behaved strict m ->
  bind m f s =
  match exec m with
  | Normal a => match f a s with (r, s', t) => (r, s', (trace m ++ t)%list) end
  | Returned r => (Returned r, s, trace m)
  | Raised e => (Raised e, s, trace m)
  end.
Proof. intros [H _]. unfold bind. rewrite (H s). reflexivity. Qed.

Lemma bind_behaved_inv {A B} strict (m : M A) (f : A -> M B) s b s' t :
  behaved strict m ->
  bind m f s = (Normal b, s', t) ->
  exists a t', exec m = Normal a /\ f a s = (Normal b, s', t').
Proof.
  intros Hm H. rewrite (bind_behaved _ _ _ _ Hm) in H.
  destruct (exec m) as [a| |]; try discriminate H.
  destruct (f a s) as [[r s2] t2] eqn:E. injection H as -> -> <-.
  exists a, t2. auto.
Qed.

(** ** Computations that keep the dictionary *)

Lemma behaved_gentle {A} strict (m : M A) : behaved strict m -> gentle strict m.
Proof.
  intros [H Hr] s r s' t E. rewrite H in E. injection E as <- <- <-.
  split; [reflexivity|]. intros Hs x Hx. eauto.
Qed.

Lemma gentle_bind {A B} strict (m : M A) (f : A -> M B) :
  gentle strict m -> (forall a, gentle strict (f a)) ->
  gentle strict (bind m f).
Proof.
  intros Hm Hf s r s' t. unfold bind.
  destruct (m s) as [[[a|x|e] s1] t1] eqn:E; destruct (Hm _ _ _ _ E) as [-> Hx].
  - destruct (f a s) as [[r2 s2] t2] eqn:E2. intros H. injection H as <- <- <-.
    exact (Hf a _ _ _ _ E2).
  - intros H. injection H as <- <- <-. split; [reflexivity|].
    intros Hs x0 E0. injection E0 as <-. exact (Hx Hs x eq_refl).
  - intros H. injection H as <- <- <-. split; [reflexivity|discriminate].
Qed.

Lemma gentle_weaken {A} (m : M A) strict : gentle true m -> gentle strict m.
Proof.
  intros H s r s' t E. destruct (H _ _ _ _ E) as [-> Hx]. auto.
Qed.

Lemma bind_get_store {B} (f : pydict -> M B) s : bind get_store f s = f s s.
Proof. unfold bind, get_store. destruct (f s s) as [[? ?] ?]. reflexivity. Qed.

Lemma gentle_shorten W strict zipUrl : gentle strict (shorten W zipUrl).
Proof.
  apply gentle_weaken. unfold shorten. intros s r s' t.
  rewrite bind_get_store.
  destruct (Py.dict_contains zipUrl s) as [[|]|e]; mnorm.
  - destruct (Py.dict_getitem s zipUrl); simpl;
      intros H; injection H as <- <- <-; split; auto; discriminate.
  - destruct (URL_SHORTENER W) as [url|];
      [|intros H; injection H as <- <- <-; split; auto; discriminate].
    destruct (String.eqb url "");
      [intros H; injection H as <- <- <-; split; auto; discriminate|].
    mnorm. rewrite bind_emit.
    destruct (shortener_post W url (shortener_request zipUrl)) as [resp|];
      mnorm;
      [|intros H; injection H as <- <- <-; split; auto; discriminate].
    unfold getitem.
    destruct (Py.getitem resp "error") as [err|]; mnorm;
      [|intros H; injection H as <- <- <-; split; auto; discriminate].
    destruct (Py.eq err (JStr "")).
    + destruct (Py.getitem resp "url_short") as [[| | | |u| |]|]; mnorm;
        try (intros H; injection H as <- <- <-; split; auto; discriminate).
      destruct (String.prefix "http" u);
        intros H; injection H as <- <- <-; split; auto; discriminate.
    + mnorm. simpl.
      intros H; injection H as <- <- <-; split; auto; discriminate.
  - intros H; injection H as <- <- <-; split; auto; discriminate.
Qed.

Lemma gentle_resolve W plugin debug : gentle true (resolve W plugin debug).
Proof.
  unfold resolve.
  repeat first
    [ apply gentle_shorten
    | apply gentle_bind; [|intros]
    | match goal with
      | |- gentle _ (match ?x with _ => _ end) => destruct x
      | |- gentle _ (if ?x then _ else _) => destruct x
      end
    | apply behaved_gentle; solve [behaved; auto with behaved] ].
Qed.

Lemma gentle_call (body : M (option json)) strict :
  gentle false body -> gentle strict (call body).
Proof.
  intros H s r s' t. unfold call.
  destruct (body s) as [[[a|x|e] s1] t1] eqn:E;
    destruct (H _ _ _ _ E) as [-> _];
    intros H'; injection H' as <- <- <-; split; auto; discriminate.
Qed.

(** [getPluginJson] never changes the dictionary it is given. *)
Lemma getPluginJson_keeps W plugin debug s r s' t :
  getPluginJson W plugin debug s = (r, s', t) -> s' = s.
Proof.
  intros H.
  assert (G : gentle true (getPluginJson W plugin debug)).
  { unfold getPluginJson. apply gentle_call.
    apply gentle_bind; [apply behaved_gentle; behaved|intros _].
    apply gentle_bind; [apply behaved_gentle; behaved|intros has_site].
    destruct has_site.
    - apply behaved_gentle, behaved_site_lookup.
    - apply gentle_weaken, gentle_resolve. }
  exact (proj1 (G _ _ _ _ H)).
Qed.

Lemma bind_inv {A B} (m : M A) (f : A -> M B) s b s' t :
  bind m f s = (Normal b, s', t) ->
  exists a s1 t1 t2, m s = (Normal a, s1, t1) /\ f a s1 = (Normal b, s', t2).
Proof.
  unfold bind. destruct (m s) as [[[a| |] s1] t1]; try discriminate.
  destruct (f a s1) as [[r s2] t2] eqn:E. intros H. injection H as -> -> <-.
  exists a, s1, t1, t2. auto.
Qed.

(** ** [getPluginJson] on a repository entry *)

(** A record returned for a repository entry is the result of lines
    188-245 on the values of a complete pass through lines 41-186. *)
Lemma resolve_inv W plugin debug s r s' t :
  resolve W plugin debug s = (Normal (Some r), s', t) ->
  s' = s /\ exists R, resolves W plugin debug s R /\ finish W R = Ok r.
Proof.
  intros H. split; [exact (proj1 (gentle_resolve W plugin debug _ _ _ _ H))|].
  unfold resolve, getitem in H.
  destruct (Py.getitem plugin "name") as [[| | | |name| |]|] eqn:Hname;
    mnorm_in H; try discriminate H.
  destruct (flag "view_only" plugin) as [vo|] eqn:Hvo;
    mnorm_in H; try discriminate H.
  destruct (flag "auto_update" plugin) as [au|] eqn:Hau;
    mnorm_in H; try discriminate H.
  apply (bind_behaved_inv true) in H; [|auto with behaved].
  destruct H as ([plugin' rd] & t1 & Hrel & H).
  assert (Hcz : exists commit zipUrl shortUrl t',
            (if vo
             then commit = JNull /\ zipUrl = JNull /\ shortUrl = JStr ""
             else exec (resolve_commit W plugin' name)
                    = Normal (commit, zipUrl) /\
                  exists t, shorten W zipUrl s = (Normal shortUrl, s, t)) /\
            (projectData <- fetch_project W name ;;
             data <- fetch_descriptor W plugin' name vo debug ;;
             requirements_txt <- fetch_requirements W plugin' name vo ;;
             record <- liftR (finish_record W plugin' name vo commit zipUrl
                                shortUrl projectData rd data
                                requirements_txt) ;;
             when debug (n <- liftR (Py.getitem plugin' "name") ;;
                         print ("Finished processing plugin: "
                                ++ py_format W n)) >>
             ret (Some record)) s = (Normal (Some r), s', t')).
  { destruct vo.
    - mnorm_in H. exists JNull, JNull, (JStr ""), t1. auto.
    - mnorm_in H.
      apply (bind_behaved_inv true) in H; [|auto with behaved].
      destruct H as ([commit zipUrl] & t2 & Hc & H). mnorm_in H.
      apply bind_inv in H. destruct H as (shortUrl & s1 & t3 & t4 & Hs & H).
      destruct (gentle_shorten W true zipUrl _ _ _ _ Hs) as [-> _].
      mnorm_in H. exists commit, zipUrl, shortUrl, t4. eauto. }
  clear H. destruct Hcz as (commit & zipUrl & shortUrl & t' & Hcz & H).
  apply (bind_behaved_inv true) in H; [|auto with behaved].
  destruct H as (pd & t5 & Hpd & H).
  apply (bind_behaved_inv true) in H; [|auto with behaved].
  destruct H as (data & t6 & Hdata & H).
  apply (bind_behaved_inv true) in H; [|auto with behaved].
  destruct H as (req & t7 & Hreq & H).
  destruct (finish_record W plugin' name vo commit zipUrl shortUrl pd rd
              data req) as [record|] eqn:Hfin;
    mnorm_in H; try discriminate H.
  apply (bind_behaved_inv true) in H; [|behaved].
  destruct H as (_ & t8 & _ & H). injection H as -> _ _.
  exists {| r_name := name; r_view_only := vo; r_auto_update := au;
            r_plugin := plugin'; r_release := rd; r_commit := commit;
            r_zipUrl := zipUrl; r_shortUrl := shortUrl; r_project := pd;
            r_data := data; r_requirements := req |}.
  unfold resolves, locates, finish. simpl. tauto.
Qed.

(** A record returned by [getPluginJson] for an entry without [site]. *)
Lemma getPluginJson_inv W plugin debug s r s' t :
  Py.contains "site" plugin = Ok false ->
  getPluginJson W plugin debug s = (Normal (Some r), s', t) ->
  s' = s /\ exists R, resolves W plugin debug s R /\ finish W R = Ok r.
Proof.
  intros Hsite H. unfold getPluginJson, call in H.
  match type of H with
  | match ?body s with _ => _ end = _ =>
      destruct (body s) as [[[a|x|e] s1] t1] eqn:E
  end; try discriminate H.
  - injection H as -> -> ->.
    apply (bind_behaved_inv true) in E; [|behaved].
    destruct E as (_ & t2 & _ & E).
    unfold contains in E. rewrite Hsite in E. mnorm_in E.
    exact (resolve_inv _ _ _ _ _ _ _ E).
  - injection H as -> -> ->. exfalso.
    assert (G : gentle true
              (when debug (n <- getitem plugin "name" ;;
                           print ("Processing plugin: " ++ py_format W n)) >>
               has_site <- contains "site" plugin ;;
               if has_site then site_lookup W plugin
               else resolve W plugin debug)).
    { apply gentle_bind; [apply behaved_gentle; behaved|intros _].
      unfold contains. rewrite Hsite.
      intros s0 r0 s0' t0. rewrite bind_Ok. apply gentle_resolve. }
    destruct (G _ _ _ _ E) as [_ G']. discriminate (G' eq_refl _ eq_refl).
Qed.

(** ** The value of a computation that ignores the dictionary *)

Lemma exec_bind {A B} strict (m : M A) (f : A -> M B) :
  behaved strict m ->
  exec (bind m f) =
  match exec m with
  | Normal a => exec (f a)
  | Returned r => Returned r
  | Raised e => Raised e
  end.
Proof.
  intros Hm. unfold exec at 1. rewrite (bind_behaved _ _ _ _ Hm).
  destruct (exec m) as [a| |]; try reflexivity.
  unfold exec. destruct (f a []) as [[? ?] ?]. reflexivity.
Qed.

Lemma exec_catch {A} strict (m : M A) (h : exn -> M A) :
  behaved strict m ->
  exec (catch m h) =
  match exec m with
  | Raised e => exec (h e)
  | other => other
  end.
Proof.
  intros [Hm _]. unfold exec at 1, catch. rewrite (Hm []).
  destruct (exec m) as [a| |e]; try reflexivity.
  unfold exec. destruct (h e []) as [[? ?] ?]. reflexivity.
Qed.

Lemma exec_ret {A} (a : A) : exec (ret a) = Normal a.
Proof. reflexivity. Qed.

Lemma exec_Ok {A} (a : A) : exec (liftR (Ok a)) = Normal a.
Proof. reflexivity. Qed.

Lemma exec_Err {A} e : exec (@liftR A (Err e)) = Raised e.
Proof. reflexivity. Qed.

Lemma exec_raise {A} e : exec (@raise A e) = Raised e.
Proof. reflexivity. Qed.

Lemma exec_return {A} r : exec (@return_ A r) = Returned r.
Proof. reflexivity. Qed.

Lemma exec_emit ev : exec (emit ev) = Normal tt.
Proof. reflexivity. Qed.

Lemma exec_getfile W url :
  exec (getfile W url) =
  match http_get W url with Ok j => Normal j | Err e => Raised e end.
Proof. unfold getfile, exec, bind, emit. simpl. destruct (http_get W url); reflexivity. Qed.

Ltac enorm_in H :=
  repeat (first
    [ rewrite exec_ret in H | rewrite exec_Ok in H | rewrite exec_Err in H
    | rewrite exec_raise in H | rewrite exec_return in H
    | rewrite exec_emit in H | rewrite exec_getfile in H
    | rewrite (exec_bind true) in H by (behaved; auto with behaved)
    | rewrite (exec_catch true) in H by (behaved; auto with behaved) ];
    cbn [negb andb orb exn_is_http] in H).

Ltac enorm :=
  repeat (first
    [ rewrite exec_ret | rewrite exec_Ok | rewrite exec_Err
    | rewrite exec_raise | rewrite exec_return
    | rewrite exec_emit | rewrite exec_getfile
    | rewrite (exec_bind true) by (behaved; auto with behaved)
    | rewrite (exec_catch true) by (behaved; auto with behaved) ];
    cbn [negb andb orb exn_is_http]).

Lemma exec_try_http {A} (body handler : M A) :
  behaved true body ->
  exec (try_http body handler) =
  match exec body with
  | Raised HTTPError => exec handler
  | other => other
  end.
Proof.
  intros Hb. unfold try_http. rewrite (exec_catch true) by assumption.
  destruct (exec body) as [a| |e]; try reflexivity.
  destruct e; reflexivity.
Qed.

(** A handler that prints and returns gives no value of its own. *)
Lemma try_http_Normal {A} (body : M A) msg a :
  behaved true body ->
  exec (try_http body (print msg >> return_ None)) = Normal a ->
  exec body = Normal a.
Proof.
  intros Hb. rewrite exec_try_http by assumption.
  destruct (exec body) as [b| |e]; try discriminate; [trivial|].
  destruct e; discriminate.
Qed.

(** What the release step returns (lines 54-86). *)
Lemma resolve_release_inv W plugin name vo au plugin' rd :
  exec (resolve_release W plugin name vo au) = Normal (plugin', rd) ->
  if au then
    (exists o t,
       plugin = JObj o /\ plugin' = JObj (Obj.set "tag" t o) /\
       Py.getitem rd "tag_name" = Ok t /\
       http_get W (api name ++ "/releases/latest") = Ok rd)
  else
    (plugin' = plugin /\
     if vo then (rd = JNull)
     else (exists t,
       Py.getitem plugin "tag" = Ok t /\
       http_get W (api name ++ "/releases/tags/" ++ py_format W t) = Ok rd)).
Proof.
  unfold resolve_release. destruct au.
  - intros H. apply try_http_Normal in H; [|behaved].
    unfold getitem, print in H. enorm_in H.
    destruct (http_get W (api name ++ "/releases/latest")) as [rd'|e] eqn:G;
      [|discriminate H].
    destruct (Py.dict_get rd' "message") as [msg|]; enorm_in H;
      [|discriminate H].
    destruct (Py.eq msg (JStr "Not Found")).
    { destruct (Py.getitem plugin "name"); enorm_in H; discriminate H. }
    destruct (Py.eq msg (JStr "Bad credentials"));
      [enorm_in H; discriminate H|].
    destruct (Py.getitem rd' "tag_name") as [t|] eqn:T; enorm_in H;
      [|discriminate H].
    destruct plugin as [| | | | | |o]; simpl in H; enorm_in H;
      try discriminate H.
    injection H as <- <-. exists o, t. auto.
  - destruct vo.
    + intros H. enorm_in H. injection H as <- <-. auto.
    + unfold tag_ref, getitem. intros H.
      destruct (Py.getitem plugin "tag") as [t|] eqn:T; enorm_in H;
        [|discriminate H].
      apply try_http_Normal in H; [|behaved].
      unfold contains, getitem, print in H. enorm_in H.
      destruct (http_get W (api name ++ "/releases/tags/" ++ py_format W t))
        as [rd'|e] eqn:G; [|discriminate H].
      destruct (Py.contains "message" rd') as [[|]|]; enorm_in H;
        try discriminate H.
      * destruct (Py.getitem rd' "message") as [m|]; enorm_in H;
          [|discriminate H].
        destruct (Py.eq m (JStr "Not Found")); enorm_in H.
        -- destruct (Py.getitem plugin "name"); enorm_in H; discriminate H.
        -- injection H as <- <-. eauto.
      * injection H as <- <-. eauto.
Qed.

(** The release step changes at most the [tag] of the entry. *)
Lemma resolve_release_entry W plugin name vo au plugin' rd k :
  exec (resolve_release W plugin name vo au) = Normal (plugin', rd) ->
  String.eqb "tag" k = false ->
  Py.getitem plugin' k = Py.getitem plugin k /\
  Py.contains k plugin' = Py.contains k plugin.
Proof.
  intros H Hk. apply resolve_release_inv in H. destruct au.
  - destruct H as (o & t & -> & -> & _). simpl. unfold Obj.mem.
    rewrite get_set, Hk. auto.
  - destruct H as [-> _]. auto.
Qed.

(** Conversely, a complete pass yields the record. *)
Lemma resolve_run W plugin debug s R r :
  resolves W plugin debug s R -> finish W R = Ok r ->
  exists t, resolve W plugin debug s = (Normal (Some r), s, t).
Proof.
  destruct R as [name vo au plugin' rd commit zipUrl shortUrl pd data req].
  unfold resolves, locates, finish. simpl.
  intros ((Hname & Hvo & Hau & Hrel & Hcz & Hpd) & Hdata & Hreq) Hfin.
  unfold resolve, getitem. rewrite Hname, Hvo, Hau. mnorm.
  rewrite (bind_behaved true) by auto with behaved. rewrite Hrel.
  assert (Hrest : exists t,
            (projectData <- fetch_project W name ;;
             data <- fetch_descriptor W plugin' name vo debug ;;
             requirements_txt <- fetch_requirements W plugin' name vo ;;
             record <- liftR (finish_record W plugin' name vo commit zipUrl
                                shortUrl projectData rd data
                                requirements_txt) ;;
             when debug (n <- liftR (Py.getitem plugin' "name") ;;
                         print ("Finished processing plugin: "
                                ++ py_format W n)) >>
             ret (Some record)) s = (Normal (Some r), s, t)).
  { rewrite (bind_behaved true) by auto with behaved. rewrite Hpd.
    rewrite (bind_behaved true) by auto with behaved. rewrite Hdata.
    rewrite (bind_behaved true) by auto with behaved. rewrite Hreq.
    rewrite Hfin. mnorm.
    destruct (resolve_release_entry _ _ _ _ _ _ _ "name" Hrel eq_refl)
      as [Hn _].
    rewrite Hn, Hname. destruct debug; cbn [when]; mnorm.
    - unfold print. rewrite bind_emit. cbv beta iota delta [ret]. eauto.
    - cbv beta iota delta [ret]. eauto. }
  destruct Hrest as (t & Hrest).
  destruct vo.
  - destruct Hcz as (-> & -> & ->). mnorm. rewrite Hrest. eauto.
  - destruct Hcz as (Hc & t3 & Hs). mnorm.
    rewrite (bind_behaved true) by auto with behaved. rewrite Hc.
    rewrite bind_bind. unfold bind at 1. rewrite Hs. mnorm.
    rewrite Hrest. eauto.
Qed.

Lemma getPluginJson_run W plugin debug s R r :
  Py.contains "site" plugin = Ok false ->
  resolves W plugin debug s R -> finish W R = Ok r ->
  exists t, getPluginJson W plugin debug s = (Normal (Some r), s, t).
Proof.
  intros Hsite HR Hfin.
  destruct (resolve_run _ _ _ _ _ _ HR Hfin) as (t & Hres).
  unfold getPluginJson, call, contains, getitem.
  rewrite (proj1 (proj1 HR)), Hsite.
  destruct debug; cbn [when]; mnorm.
  - unfold print. rewrite bind_emit. cbv beta. mnorm. rewrite Hres. eauto.
  - rewrite Hres. eauto.
Qed.

(** ** The fields of a resolved record (lines 188-245) *)

Ltac getset :=
  repeat (first [rewrite get_set | rewrite get_del];
          cbn [String.eqb Ascii.eqb Bool.eqb]).

Lemma get_api_step k d :
  String.eqb "api" k = false ->
  Obj.get k (match Obj.get "api" d with
             | Some a => if Py.isinstance_str a then Obj.set "api" (JArr [a]) d
                         else d
             | None => d
             end) = Obj.get k d.
Proof.
  intros Hk. destruct (Obj.get "api" d) as [a|]; [|reflexivity].
  destruct (Py.isinstance_str a); [|reflexivity].
  rewrite get_set, Hk. reflexivity.
Qed.

(** Lines 220-230 leave one canonical key. *)
Lemma get_normalize_minimum d :
  Obj.get "minimumBinaryNinjaVersion" (normalize_minimum d)
    = Some (declared_minimum d) /\
  Obj.get "minimumbinaryninjaversion" (normalize_minimum d) = None.
Proof.
  unfold normalize_minimum, declared_minimum.
  destruct (Obj.get "minimumbinaryninjaversion" d) as [legacy|] eqn:L.
  - getset. auto.
  - destruct (Obj.get "minimumBinaryNinjaVersion" d) as [current|] eqn:C.
    + destruct (Py.isinstance_int current); getset; auto.
    + getset. auto.
Qed.

Lemma get_normalize_minimum_other k d :
  String.eqb "minimumBinaryNinjaVersion" k = false ->
  String.eqb "minimumbinaryninjaversion" k = false ->
  Obj.get k (normalize_minimum d) = Obj.get k d.
Proof.
  intros H1 H2. unfold normalize_minimum.
  destruct (Obj.get "minimumbinaryninjaversion" d) as [legacy|].
  - rewrite get_del, H2, get_set, H1. reflexivity.
  - destruct (Obj.get "minimumBinaryNinjaVersion" d) as [current|].
    + destruct (Py.isinstance_int current); [reflexivity|].
      rewrite get_set, H1. reflexivity.
    + rewrite get_set, H1. reflexivity.
Qed.

Lemma get_default_other k k' v d :
  String.eqb k' k = false -> Obj.get k (default k' v d) = Obj.get k d.
Proof.
  intros H. rewrite get_default, H. destruct (Obj.mem k' d); reflexivity.
Qed.

Lemma get_maximum_step k d :
  String.eqb "maximumBinaryNinjaVersion" k = false ->
  Obj.get k (match Obj.get "maximumBinaryNinjaVersion" d with
             | Some m =>
                 if Py.isinstance_int m then d
                 else Obj.set "maximumBinaryNinjaVersion" (JInt 999999) d
             | None => Obj.set "maximumBinaryNinjaVersion" (JInt 999999) d
             end) = Obj.get k d.
Proof.
  intros Hk. destruct (Obj.get "maximumBinaryNinjaVersion" d) as [m|].
  - destruct (Py.isinstance_int m); [reflexivity|].
    rewrite get_set, Hk. reflexivity.
  - rewrite get_set, Hk. reflexivity.
Qed.

(** The keys that the normalisation of lines 217-240 never touches. *)
Lemma get_normalize_schema_other k d :
  String.eqb "api" k = false ->
  String.eqb "minimumBinaryNinjaVersion" k = false ->
  String.eqb "minimumbinaryninjaversion" k = false ->
  String.eqb "pluginmetadataversion" k = false ->
  String.eqb "maximumBinaryNinjaVersion" k = false ->
  String.eqb "platforms" k = false ->
  String.eqb "installinstructions" k = false ->
  Obj.get k (normalize_schema d) = Obj.get k d.
Proof.
  intros H1 H2 H3 H4 H5 H6 H7. unfold normalize_schema. cbv zeta.
  rewrite !(get_default_other k) by assumption.
  rewrite (get_maximum_step k) by assumption.
  rewrite (get_default_other k) by assumption.
  rewrite (get_normalize_minimum_other k) by assumption.
  apply get_api_step. assumption.
Qed.

Lemma get_normalize_schema_minimum d :
  Obj.get "minimumBinaryNinjaVersion" (normalize_schema d)
    = Some (declared_minimum
              (match Obj.get "api" d with
               | Some a =>
                   if Py.isinstance_str a then Obj.set "api" (JArr [a]) d
                   else d
               | None => d
               end)) /\
  Obj.get "minimumbinaryninjaversion" (normalize_schema d) = None.
Proof.
  unfold normalize_schema. cbv zeta.
  rewrite !(get_default_other "minimumBinaryNinjaVersion") by reflexivity.
  rewrite !(get_default_other "minimumbinaryninjaversion") by reflexivity.
  rewrite !(get_maximum_step "minimumBinaryNinjaVersion") by reflexivity.
  rewrite !(get_maximum_step "minimumbinaryninjaversion") by reflexivity.
  rewrite !(get_default_other "minimumBinaryNinjaVersion") by reflexivity.
  rewrite !(get_default_other "minimumbinaryninjaversion") by reflexivity.
  apply get_normalize_minimum.
Qed.

Lemma declared_minimum_ext d d' :
  Obj.get "minimumbinaryninjaversion" d = Obj.get "minimumbinaryninjaversion" d' ->
  Obj.get "minimumBinaryNinjaVersion" d = Obj.get "minimumBinaryNinjaVersion" d' ->
  declared_minimum d = declared_minimum d'.
Proof. unfold declared_minimum. intros -> ->. reflexivity. Qed.

Lemma declared_minimum_int d : Py.isinstance_int (declared_minimum d) = true.
Proof.
  unfold declared_minimum.
  destruct (Obj.get "minimumbinaryninjaversion" d) as [l|].
  - destruct (Py.isinstance_int l) eqn:E; auto.
  - destruct (Obj.get "minimumBinaryNinjaVersion" d) as [c|]; auto.
    destruct (Py.isinstance_int c) eqn:E; auto.
Qed.

Lemma lt_int_like m :
  Py.isinstance_int m = true -> exists b, Py.lt m (JInt 6135) = Ok b.
Proof.
  destruct m; try discriminate; intros _; unfold Py.lt; simpl; eauto.
Qed.

(** What lines 188-245 write into the record. *)
Lemma finish_record_fields W plugin name vo commit zipUrl shortUrl pd rd data
    req r :
  finish_record W plugin name vo commit zipUrl shortUrl pd rd data req = Ok r ->
  exists d o pdo stamp ts fn,
    r = JObj d /\ data = JObj o /\ pd = JObj pdo /\
    (if vo then Py.getitem pd "updated_at"
     else Py.getitem rd "published_at") = Ok stamp /\
    timestamp_of W stamp = Ok ts /\
    Obj.get "full_name" pdo = Some (JStr fn) /\
    Obj.get "lastUpdated" d = Some (JInt ts) /\
    Obj.get "projectData" d
      = Some (JObj (Obj.set "updated_at" (JStr (isoformat_utc W ts)) pdo)) /\
    Obj.get "packageUrl" d = Some (if vo then JStr placeholder else zipUrl) /\
    Obj.get "packageShortUrl" d
      = Some (if vo then JStr placeholder else shortUrl) /\
    Obj.get "view_only" d = Some (JBool vo) /\
    Obj.get "path" d = Some (JStr (path_of fn)) /\
    Obj.get "commit" d = Some commit /\
    Obj.get "minimumbinaryninjaversion" d = None /\
    Obj.get "minimumBinaryNinjaVersion" d
      = Some (if vo then floor_6135 (declared_minimum o)
              else declared_minimum o).
Proof.
  unfold finish_record, and_then.
  destruct (if vo then Py.getitem pd "updated_at"
            else Py.getitem rd "published_at") as [stamp|] eqn:Hstamp;
    [|discriminate].
  destruct (timestamp_of W stamp) as [ts|] eqn:Hts; [|discriminate].
  destruct data as [| | | | | |o]; try discriminate. cbn [Py.setitem].
  destruct pd as [| | | | | |pdo]; try discriminate. cbn [Py.setitem Py.getitem].
  rewrite get_set. cbn [String.eqb Ascii.eqb Bool.eqb].
  destruct (Obj.get "full_name" pdo) as [[| | | |fn| |]|] eqn:Hfn;
    try discriminate.
  set (pdo' := Obj.set "updated_at" (JStr (isoformat_utc W ts)) pdo).
  match goal with
  | |- context [normalize_schema ?b] => set (base := b)
  end.
  assert (Hbase : forall k,
            String.eqb "minimumBinaryNinjaVersion" k = true \/
            String.eqb "minimumbinaryninjaversion" k = true ->
            Obj.get k base = Obj.get k o).
  { intros k [Hk|Hk]; apply String.eqb_eq in Hk; subst k; unfold base;
      destruct vo; getset; reflexivity. }
  assert (Hmin : declared_minimum
                   (match Obj.get "api" base with
                    | Some a =>
                        if Py.isinstance_str a
                        then Obj.set "api" (JArr [a]) base
                        else base
                    | None => base
                    end) = declared_minimum o).
  { apply declared_minimum_ext; rewrite get_api_step by reflexivity;
      apply Hbase; auto. }
  destruct (get_normalize_schema_minimum base) as [Hm Hl].
  rewrite Hmin in Hm.
  destruct (Py.contains "subdir" plugin) as [has_subdir|]; [|discriminate].
  set (with_subdir := if has_subdir
                      then match Py.getitem plugin "subdir" with
                           | Ok sd => Ok (Obj.set "subdir" sd
                                            (normalize_schema base))
                           | Err e => Err e
                           end
                      else Ok (normalize_schema base)).
  destruct with_subdir as [d|] eqn:Hd; [|discriminate].
  assert (Hget : forall k, String.eqb "subdir" k = false ->
                   Obj.get k d = Obj.get k (normalize_schema base)).
  { intros k Hk. unfold with_subdir in Hd. destruct has_subdir.
    - destruct (Py.getitem plugin "subdir"); [|discriminate].
      injection Hd as <-. rewrite get_set, Hk. reflexivity.
    - injection Hd as <-. reflexivity. }
  assert (Hother : forall k,
            String.eqb "subdir" k = false ->
            String.eqb "api" k = false ->
            String.eqb "minimumBinaryNinjaVersion" k = false ->
            String.eqb "minimumbinaryninjaversion" k = false ->
            String.eqb "pluginmetadataversion" k = false ->
            String.eqb "maximumBinaryNinjaVersion" k = false ->
            String.eqb "platforms" k = false ->
            String.eqb "installinstructions" k = false ->
            Obj.get k d = Obj.get k base).
  { intros. rewrite Hget by assumption.
    apply get_normalize_schema_other; assumption. }
  assert (Hfields :
    Obj.get "lastUpdated" d = Some (JInt ts) /\
    Obj.get "projectData" d = Some (JObj pdo') /\
    Obj.get "packageUrl" d = Some (if vo then JStr placeholder else zipUrl) /\
    Obj.get "packageShortUrl" d
      = Some (if vo then JStr placeholder else shortUrl) /\
    Obj.get "view_only" d = Some (JBool vo) /\
    Obj.get "path" d = Some (JStr (path_of fn)) /\
    Obj.get "commit" d = Some commit).
  { rewrite !Hother by reflexivity. unfold base.
    destruct vo; getset; repeat split; reflexivity. }
  destruct Hfields as (F1 & F2 & F3 & F4 & F5 & F6 & F7).
  assert (Hm' : Obj.get "minimumBinaryNinjaVersion" d
                = Some (declared_minimum o))
    by (rewrite Hget by reflexivity; exact Hm).
  assert (Hl' : Obj.get "minimumbinaryninjaversion" d = None)
    by (rewrite Hget by reflexivity; exact Hl).
  destruct vo.
  - cbn [Py.getitem]. rewrite Hm'.
    destruct (lt_int_like _ (declared_minimum_int o)) as (b & Hb).
    rewrite Hb. intros H. injection H as <-.
    exists (if b then Obj.set "minimumBinaryNinjaVersion" (JInt 6135) d else d),
      o, pdo, stamp, ts, fn.
    unfold floor_6135. rewrite Hb.
    destruct b; getset; rewrite ?F1, ?F2, ?F3, ?F4, ?F5, ?F6, ?F7, ?Hm', ?Hl';
      repeat split; try reflexivity; assumption.
  - intros H. injection H as <-.
    exists d, o, pdo, stamp, ts, fn.
    rewrite F1, F2, F3, F4, F5, F6, F7, Hm', Hl'.
    repeat split; try reflexivity; assumption.
Qed.

(** ** Claim C8: the path of a record *)

Lemma path_of_spec s : path_of s = path_spec s.
Proof.
  unfold path_of. induction s as [|c s IH]; simpl; [reflexivity|].
  rewrite IH. unfold slash_to_underscore.
  destruct (Ascii.eqb c "/"); reflexivity.
Qed.

Lemma is_word_classes c :
  is_word c = is_letter c || is_digit c || is_underscore c.
Proof.
  unfold is_word, is_letter, is_digit, is_underscore.
  replace (Ascii.eqb c "_") with (N_of_ascii c =? 95)%N; [reflexivity|].
  destruct (Ascii.eqb c "_") eqn:E.
  - apply Ascii.eqb_eq in E. subst c. reflexivity.
  - apply N.eqb_neq. intros H. apply Ascii.eqb_neq in E. apply E.
    rewrite <- (ascii_N_embedding c), H. reflexivity.
Qed.

Lemma filter_forallb p s : Str.forallb p (Str.filter p s) = true.
Proof.
  induction s as [|c s IH]; simpl; [reflexivity|].
  destruct (p c) eqn:E; simpl; [rewrite E|]; exact IH.
Qed.

Lemma forallb_ext p q s :
  (forall c, p c = q c) -> Str.forallb p s = Str.forallb q s.
Proof.
  intros H. induction s as [|c s IH]; simpl; [reflexivity|].
  rewrite H, IH. reflexivity.
Qed.

Lemma path_of_word s : Str.forallb is_word s = true -> path_of s = s.
Proof.
  unfold path_of. induction s as [|c s IH]; simpl; [reflexivity|].
  intros H. apply andb_prop in H. destruct H as [Hc Hs].
  rewrite IH by assumption. unfold slash_to_underscore.
  destruct (Ascii.eqb c "/") eqn:E.
  - apply Ascii.eqb_eq in E. subst c. discriminate Hc.
  - rewrite Hc. reflexivity.
Qed.

Lemma path_of_app a b : path_of (a ++ b) = path_of a ++ path_of b.
Proof.
  unfold path_of. induction a as [|c a IH]; simpl; [reflexivity|].
  destruct (is_word (slash_to_underscore c)); simpl; rewrite IH; reflexivity.
Qed.

(** The owner and the name stay apart in the path. *)
Lemma path_of_owner_name owner repo :
  Str.forallb is_word owner = true -> Str.forallb is_word repo = true ->
  path_of (owner ++ "/" ++ repo) = owner ++ "_" ++ repo.
Proof.
  intros Ho Hr. rewrite !path_of_app.
  rewrite (path_of_word owner), (path_of_word repo) by assumption.
  reflexivity.
Qed.

Lemma fetch_project_inv W name pd :
  exec (fetch_project W name) = Normal pd -> http_get W (api name) = Ok pd.
Proof.
  unfold fetch_project. intros H. apply try_http_Normal in H; [|behaved].
  rewrite exec_getfile in H.
  destruct (http_get W (api name)); [|discriminate H].
  injection H as ->. reflexivity.
Qed.

(** Claim C8, for the repository path.  A record resolved for an entry
    without [site] has as [path] the full name of the repository, as the
    hosting service reports it, with every slash replaced by an underscore
    and every other character that is not a letter, a digit or an
    underscore removed; the path consists of letters, digits and
    underscores only, and for a full name [owner/name] made of such
    characters it is [owner_name]. *)
Theorem C8_path W plugin debug s r s' t :
  Py.contains "site" plugin = Ok false ->
  getPluginJson W plugin debug s = (Normal (Some r), s', t) ->
  exists name project full_name,
    Py.getitem plugin "name" = Ok (JStr name) /\
    http_get W (api name) = Ok project /\
    Py.getitem project "full_name" = Ok (JStr full_name) /\
    Py.getitem r "path" = Ok (JStr (path_of full_name)) /\
    path_of full_name = path_spec full_name /\
    Str.forallb (fun c => is_letter c || is_digit c || is_underscore c)
      (path_of full_name) = true /\
    (forall owner repo,
       full_name = owner ++ "/" ++ repo ->
       Str.forallb is_word owner = true -> Str.forallb is_word repo = true ->
       path_of full_name = owner ++ "_" ++ repo).
Proof.
  intros Hsite H.
  destruct (getPluginJson_inv _ _ _ _ _ _ _ Hsite H) as (_ & R & HR & Hfin).
  destruct (finish_record_fields _ _ _ _ _ _ _ _ _ _ _ _ Hfin)
    as (d & o & pdo & stamp & ts & fn & -> & _ & Hpd & _ & _ & Hfn & _ & _ &
        _ & _ & _ & Hpath & _).
  destruct HR as ((Hname & _ & _ & _ & _ & Hproj) & _).
  exists (r_name R), (r_project R), fn.
  split; [assumption|]. split; [apply fetch_project_inv; assumption|].
  rewrite Hpd. simpl. rewrite Hfn, Hpath.
  split; [reflexivity|]. split; [reflexivity|].
  split; [apply path_of_spec|]. split.
  - rewrite <- (forallb_ext is_word) by apply is_word_classes.
    apply filter_forallb.
  - intros owner repo -> Ho Hr. apply path_of_owner_name; assumption.
Qed.

(** ** Claims C5, C6 and C7: the fields of a repository record *)

Lemma floor_6135_spec m :
  Py.isinstance_int m = true ->
  exists z, floor_6135 m = JInt z /\ (6135 <= z)%Z /\
            (forall n, m = JInt n -> z = Z.max n 6135).
Proof.
  destruct m as [|b|n| | | |]; try discriminate; intros _.
  - exists 6135%Z. destruct b; repeat split; try reflexivity; try lia;
      discriminate.
  - unfold floor_6135, Py.lt. rewrite gt_int.
    destruct (n <? 6135)%Z eqn:E.
    + apply Z.ltb_lt in E. exists 6135%Z.
      repeat split; try lia. intros k [= <-]. lia.
    + apply Z.ltb_ge in E. exists n.
      repeat split; try lia. intros k [= <-]. lia.
Qed.

(** The loop of lines 95-99 stops at the first tag of the wanted name. *)
Lemma find_tag_inv plugin wanted tags commit zipUrl :
  Py.getitem plugin "tag" = Ok wanted ->
  exec (find_tag plugin tags) = Normal (commit, zipUrl) ->
  (commit = JNull /\
   forall tag, In tag tags ->
     exists n, Py.getitem tag "name" = Ok n /\ Py.eq n wanted = false) \/
  (exists before tag after n c,
     tags = (before ++ tag :: after)%list /\
     (forall x, In x before ->
        exists m, Py.getitem x "name" = Ok m /\ Py.eq m wanted = false) /\
     Py.getitem tag "name" = Ok n /\ Py.eq n wanted = true /\
     Py.getitem tag "commit" = Ok c /\ Py.getitem c "sha" = Ok commit /\
     Py.getitem tag "zipball_url" = Ok zipUrl).
Proof.
  intros Hw. induction tags as [|tag rest IH]; simpl; intros H.
  - injection H as <- <-. left. split; [reflexivity|]. intros ? [].
  - unfold getitem in H. enorm_in H.
    destruct (Py.getitem tag "name") as [n|] eqn:Hn; enorm_in H;
      [|discriminate H].
    rewrite Hw in H. enorm_in H.
    destruct (Py.eq n wanted) eqn:E.
    + destruct (Py.getitem tag "commit") as [c|] eqn:Hc; enorm_in H;
        [|discriminate H].
      destruct (Py.getitem c "sha") as [sha|] eqn:Hsha; enorm_in H;
        [|discriminate H].
      destruct (Py.getitem tag "zipball_url") as [z|] eqn:Hz; enorm_in H;
        [|discriminate H].
      injection H as <- <-. right.
      exists [], tag, rest, n, c. simpl. repeat split; auto. intros ? [].
    + destruct (IH H) as [[-> Hall]|(before & tag' & after & n' & c & -> & Hb & Hrest)].
      * left. split; [reflexivity|]. intros x [<-|Hx]; eauto.
      * right. exists (tag :: before), tag', after, n', c.
        split; [reflexivity|]. split; [|exact Hrest].
        intros x [<-|Hx]; eauto.
Qed.

Lemma resolve_commit_inv W plugin name commit zipUrl :
  exec (resolve_commit W plugin name) = Normal (commit, zipUrl) ->
  exists tagData tags,
    http_get W (api name ++ "/tags") = Ok tagData /\
    Py.iter tagData = Ok tags /\
    exec (find_tag plugin tags) = Normal (commit, zipUrl) /\
    is_None commit = false.
Proof.
  unfold resolve_commit. intros H.
  apply try_http_Normal in H; [|behaved; auto with behaved].
  unfold iter in H. enorm_in H.
  destruct (http_get W (api name ++ "/tags")) as [tagData|] eqn:G;
    [|discriminate H].
  destruct (Py.iter tagData) as [tags|] eqn:I; enorm_in H; [|discriminate H].
  destruct (exec (find_tag plugin tags)) as [[c z]| |] eqn:F;
    try discriminate H.
  cbn [fst] in H. destruct (is_None c) eqn:N.
  - unfold tag_ref, getitem, print in H. enorm_in H.
    destruct (Py.getitem plugin "tag"); enorm_in H; [|discriminate H].
    destruct (Py.getitem plugin "name"); enorm_in H; discriminate H.
  - enorm_in H. injection H as <- <-. exists tagData, tags. auto.
Qed.

(** Claim C5, for the repository path.  A record resolved for a
    [view_only] entry without [site] has the placeholder as [packageUrl]
    and [packageShortUrl], [None] as [commit], and an integer
    [minimumBinaryNinjaVersion] of at least 6135: the minimum that the
    descriptor declares, raised to 6135 when below. *)
Theorem C5_view_only W plugin debug s r s' t :
  Py.contains "site" plugin = Ok false ->
  flag "view_only" plugin = Ok true ->
  getPluginJson W plugin debug s = (Normal (Some r), s', t) ->
  Py.getitem r "packageUrl" = Ok (JStr placeholder) /\
  Py.getitem r "packageShortUrl" = Ok (JStr placeholder) /\
  Py.getitem r "commit" = Ok JNull /\
  exists R descriptor z,
    resolves W plugin debug s R /\ r_data R = JObj descriptor /\
    Py.getitem r "minimumBinaryNinjaVersion" = Ok (JInt z) /\
    (6135 <= z)%Z /\
    (forall n, declared_minimum descriptor = JInt n -> z = Z.max n 6135).
Proof.
  intros Hsite Hvo H.
  destruct (getPluginJson_inv _ _ _ _ _ _ _ Hsite H) as (_ & R & HR & Hfin).
  destruct (finish_record_fields _ _ _ _ _ _ _ _ _ _ _ _ Hfin)
    as (d & o & pdo & stamp & ts & fn & -> & Hdata & _ & _ & _ & _ & _ & _ &
        Hurl & Hshort & _ & _ & Hcommit & _ & Hmin).
  assert (Hv : r_view_only R = true).
  { destruct HR as ((_ & Hvo' & _) & _). rewrite Hvo in Hvo'. congruence. }
  rewrite Hv in *.
  assert (Hc : r_commit R = JNull).
  { destruct HR as ((_ & _ & _ & _ & Hcz & _) & _). rewrite Hv in Hcz. tauto. }
  cbn [Py.getitem]. rewrite Hurl, Hshort, Hcommit, Hc, Hmin.
  repeat split.
  destruct (floor_6135_spec _ (declared_minimum_int o)) as (z & Hz & Hge & Hmax).
  exists R, o, z. rewrite Hz. auto.
Qed.

(** Claim C6, for the repository path.  In a record resolved for an entry
    without [site] the legacy key is absent, and
    [minimumBinaryNinjaVersion] is the minimum that the descriptor
    declares (0 when it has neither key, the value of the legacy key when
    that is an integer, 0 when the legacy key is not an integer), raised
    to 6135 when below for a [view_only] entry. *)
Theorem C6_minimum_version W plugin debug s r s' t :
  Py.contains "site" plugin = Ok false ->
  getPluginJson W plugin debug s = (Normal (Some r), s', t) ->
  exists R descriptor,
    resolves W plugin debug s R /\ r_data R = JObj descriptor /\
    Py.contains "minimumbinaryninjaversion" r = Ok false /\
    Py.getitem r "minimumBinaryNinjaVersion"
      = Ok (if r_view_only R then floor_6135 (declared_minimum descriptor)
            else declared_minimum descriptor) /\
    (Obj.get "minimumbinaryninjaversion" descriptor = None ->
     Obj.get "minimumBinaryNinjaVersion" descriptor = None ->
     declared_minimum descriptor = JInt 0) /\
    (forall v, Obj.get "minimumbinaryninjaversion" descriptor = Some v ->
               Py.isinstance_int v = true ->
               declared_minimum descriptor = v) /\
    (forall v, Obj.get "minimumbinaryninjaversion" descriptor = Some v ->
               Py.isinstance_int v = false ->
               declared_minimum descriptor = JInt 0).
Proof.
  intros Hsite H.
  destruct (getPluginJson_inv _ _ _ _ _ _ _ Hsite H) as (_ & R & HR & Hfin).
  destruct (finish_record_fields _ _ _ _ _ _ _ _ _ _ _ _ Hfin)
    as (d & o & pdo & stamp & ts & fn & -> & Hdata & _ & _ & _ & _ & _ & _ &
        _ & _ & _ & _ & _ & Hlegacy & Hmin).
  exists R, o. cbn [Py.getitem Py.contains]. unfold Obj.mem.
  rewrite Hlegacy, Hmin.
  refine (conj HR (conj Hdata (conj eq_refl (conj eq_refl (conj _ (conj _ _))))));
    unfold declared_minimum.
  - intros -> ->. reflexivity.
  - intros v -> ->. reflexivity.
  - intros v -> ->. reflexivity.
Qed.

(** Claim C7, for the repository path.  For an entry without [site] that
    is neither [view_only] nor [auto_update], the [commit] of the record
    is the [sha] of the first tag of the fetched list whose name equals
    the entry's tag; when no tag of the list has that name there is no
    record. *)
Theorem C7_pinned_commit W plugin debug s :
  Py.contains "site" plugin = Ok false ->
  flag "view_only" plugin = Ok false ->
  flag "auto_update" plugin = Ok false ->
  (forall r s' t,
     getPluginJson W plugin debug s = (Normal (Some r), s', t) ->
     exists name wanted tagData before tag after n c sha,
       Py.getitem plugin "name" = Ok (JStr name) /\
       Py.getitem plugin "tag" = Ok wanted /\
       http_get W (api name ++ "/tags") = Ok tagData /\
       Py.iter tagData = Ok (before ++ tag :: after)%list /\
       (forall x, In x before ->
          exists m, Py.getitem x "name" = Ok m /\ Py.eq m wanted = false) /\
       Py.getitem tag "name" = Ok n /\ Py.eq n wanted = true /\
       Py.getitem tag "commit" = Ok c /\ Py.getitem c "sha" = Ok sha /\
       Py.getitem r "commit" = Ok sha) /\
  (forall name wanted tagData tags,
     Py.getitem plugin "name" = Ok (JStr name) ->
     Py.getitem plugin "tag" = Ok wanted ->
     http_get W (api name ++ "/tags") = Ok tagData ->
     Py.iter tagData = Ok tags ->
     (forall tag, In tag tags ->
        exists n, Py.getitem tag "name" = Ok n /\ Py.eq n wanted = false) ->
     forall r s' t,
       getPluginJson W plugin debug s <> (Normal (Some r), s', t)).
Proof.
  intros Hsite Hvo Hau.
  assert (Hrec : forall r s' t,
     getPluginJson W plugin debug s = (Normal (Some r), s', t) ->
     exists name wanted tagData before tag after n c sha,
       Py.getitem plugin "name" = Ok (JStr name) /\
       Py.getitem plugin "tag" = Ok wanted /\
       http_get W (api name ++ "/tags") = Ok tagData /\
       Py.iter tagData = Ok (before ++ tag :: after)%list /\
       (forall x, In x before ->
          exists m, Py.getitem x "name" = Ok m /\ Py.eq m wanted = false) /\
       Py.getitem tag "name" = Ok n /\ Py.eq n wanted = true /\
       Py.getitem tag "commit" = Ok c /\ Py.getitem c "sha" = Ok sha /\
       Py.getitem r "commit" = Ok sha).
  { intros r s' t H.
    destruct (getPluginJson_inv _ _ _ _ _ _ _ Hsite H) as (_ & R & HR & Hfin).
    destruct (finish_record_fields _ _ _ _ _ _ _ _ _ _ _ _ Hfin)
      as (d & o & pdo & stamp & ts & fn & -> & _ & _ & _ & _ & _ & _ & _ &
          _ & _ & _ & _ & Hcommit & _).
    destruct HR as ((Hname & Hvo' & Hau' & Hrel & Hcz & _) & _).
    rewrite Hvo in Hvo'. injection Hvo' as Hvo'.
    rewrite Hau in Hau'. injection Hau' as Hau'.
    rewrite <- Hvo' in Hcz. rewrite <- Hvo', <- Hau' in Hrel.
    apply resolve_release_inv in Hrel. cbv iota in Hrel.
    destruct Hrel as (Hp & wanted & Hwanted & _).
    destruct Hcz as (Hc & _). rewrite Hp in Hc.
    apply resolve_commit_inv in Hc.
    destruct Hc as (tagData & tags & Hget & Hiter & Hfind & Hnone).
    destruct (find_tag_inv _ _ _ _ _ Hwanted Hfind)
      as [[Hnull _]|(before & tag & after & n & c & -> & Hb & Hn & He & Hc & Hsha & _)].
    - rewrite Hnull in Hnone. discriminate Hnone.
    - exists (r_name R), wanted, tagData, before, tag, after, n, c, (r_commit R).
      cbn [Py.getitem]. rewrite Hcommit. repeat split; auto. }
  split; [exact Hrec|].
  intros name wanted tagData tags Hname Hwanted Hget Hiter Hnone r s' t H.
  destruct (Hrec _ _ _ H)
    as (name' & wanted' & tagData' & before & tag & after & n & c & sha &
        Hname' & Hwanted' & Hget' & Hiter' & _ & Hn & He & _).
  rewrite Hname in Hname'. injection Hname' as <-.
  rewrite Hwanted in Hwanted'. injection Hwanted' as <-.
  rewrite Hget in Hget'. injection Hget' as <-.
  rewrite Hiter in Hiter'. injection Hiter' as ->.
  destruct (Hnone tag) as (n' & Hn' & He');
    [apply in_or_app; right; left; reflexivity|].
  congruence.
Qed.

(** ** The claims on concrete runs *)

(** The diff of two small dictionaries: the removed list has no duplicate. *)
Lemma C3_registry_diff_witness :
  dict_wf Scenario.sample_new = true /\
  dict_wf Scenario.sample_old = true /\
  NoDup (removed Scenario.sample_old [JStr "acme/viewer"; JStr "acme/tool"]).
Proof.
  split; [reflexivity|]. split; [reflexivity|].
  exact (proj1 (proj2 (proj2 (proj2
    (proj1 (C3_registry_diff Scenario.sample_new Scenario.sample_old
              eq_refl eq_refl)
       [] [JStr "acme/viewer"] [JStr "acme/tool"]
       [JStr "acme/viewer"; JStr "acme/tool"] [] [] eq_refl))))).
Defined.

(** A view-only repository entry. *)
Lemma C5_view_only_witness :
  Py.contains "site" Scenario.viewer_entry = Ok false /\
  flag "view_only" Scenario.viewer_entry = Ok true /\
  Py.getitem Scenario.viewer_record "packageUrl" = Ok (JStr placeholder).
Proof.
  split; [reflexivity|]. split; [reflexivity|].
  refine (proj1 (C5_view_only Scenario.plain Scenario.viewer_entry false []
                   Scenario.viewer_record _ _ eq_refl eq_refl _)).
  vm_compute. reflexivity.
Defined.

(** Claim C5 as stated fails for a [view_only] entry that names a [site]:
    its record is the first item of the index, with a real artifact, a
    real commit and a minimum version below 6135. *)
Lemma C5_counterexample :
  flag "view_only" Scenario.mirror_view_entry = Ok true /\
  option_map registry
    (value (main Scenario.plain None (JArr [Scenario.mirror_view_entry])
              false []))
    = Some [Scenario.mirror] /\
  Py.getitem Scenario.mirror "packageUrl"
    = Ok (JStr "https://plugins.example/mirror.zip") /\
  Py.getitem Scenario.mirror "packageShortUrl"
    = Ok (JStr "https://plugins.example/m") /\
  Py.getitem Scenario.mirror "commit" = Ok (JStr "deadbeef") /\
  Py.getitem Scenario.mirror "minimumBinaryNinjaVersion" = Ok (JInt 10).
Proof. vm_compute. repeat split; reflexivity. Qed.

(** A pinned repository entry whose descriptor has an integer legacy key. *)
Lemma C6_minimum_version_witness :
  Py.contains "site" Scenario.tool_entry = Ok false /\
  exists R descriptor,
    resolves Scenario.plain Scenario.tool_entry false [] R /\
    r_data R = JObj descriptor /\
    Py.contains "minimumbinaryninjaversion" Scenario.tool_record = Ok false.
Proof.
  split; [reflexivity|].
  destruct (C6_minimum_version Scenario.plain Scenario.tool_entry false []
              Scenario.tool_record [] _ eq_refl
              ltac:(vm_compute; reflexivity))
    as (R & descriptor & HR & Hd & Hl & _).
  exists R, descriptor. auto.
Defined.

(** Claim C6 as stated fails for a view-only entry: the descriptor has
    neither key and the record has 6135, not 0. *)
Lemma C6_counterexample :
  value (getPluginJson Scenario.plain Scenario.viewer_entry false [])
    = Some (Some Scenario.viewer_record) /\
  json_loads Scenario.plain "viewer.json" = Some (JObj [("name", JStr "Viewer")]) /\
  Py.getitem Scenario.viewer_record "minimumBinaryNinjaVersion"
    = Ok (JInt 6135).
Proof. vm_compute. repeat split; reflexivity. Qed.

(** A pinned repository entry: the commit is that of tag v1. *)
Lemma C7_pinned_commit_witness :
  Py.contains "site" Scenario.tool_entry = Ok false /\
  flag "view_only" Scenario.tool_entry = Ok false /\
  flag "auto_update" Scenario.tool_entry = Ok false /\
  exists sha, Py.getitem Scenario.tool_record "commit" = Ok sha.
Proof.
  split; [reflexivity|]. split; [reflexivity|]. split; [reflexivity|].
  destruct (proj1 (C7_pinned_commit Scenario.plain Scenario.tool_entry false
                     [] eq_refl eq_refl eq_refl)
              Scenario.tool_record [] _ ltac:(vm_compute; reflexivity))
    as (name & wanted & tagData & before & tag & after & n & c & sha & H).
  exists sha. apply H.
Defined.

(** Claim C7 as stated fails for a pinned entry that names a [site]: the
    commit of its record is the one of the index, not the one of tag v1
    in the tag list of the repository. *)
Lemma C7_counterexample :
  flag "view_only" Scenario.mirror_entry = Ok false /\
  flag "auto_update" Scenario.mirror_entry = Ok false /\
  Py.getitem Scenario.mirror_entry "tag" = Ok (JStr "v1") /\
  option_map registry
    (value (main Scenario.plain None (JArr [Scenario.mirror_entry]) false []))
    = Some [Scenario.mirror] /\
  Py.getitem Scenario.mirror "commit" = Ok (JStr "deadbeef") /\
  value (find_tag Scenario.tool_entry
           match http_get Scenario.plain (Scenario.tool ++ "/tags") with
           | Ok (JArr tags) => tags
           | _ => []
           end [])
    = Some (JStr "abc1234", JStr Scenario.tool_zip).
Proof. vm_compute. repeat split; reflexivity. Qed.

(** A view-only repository entry: the path of acme/viewer. *)
Lemma C8_path_witness :
  Py.contains "site" Scenario.viewer_entry = Ok false /\
  exists name project full_name,
    Py.getitem Scenario.viewer_entry "name" = Ok (JStr name) /\
    http_get Scenario.plain (api name) = Ok project /\
    Py.getitem project "full_name" = Ok (JStr full_name) /\
    Py.getitem Scenario.viewer_record "path" = Ok (JStr (path_of full_name)).
Proof.
  split; [reflexivity|].
  destruct (C8_path Scenario.plain Scenario.viewer_entry false []
              Scenario.viewer_record [] _ eq_refl
              ltac:(vm_compute; reflexivity))
    as (name & project & full_name & H1 & H2 & H3 & H4 & _).
  exists name, project, full_name. auto.
Defined.

(** Claim C8 as stated fails for an entry that names a [site]: the path
    of its record is the one of the index, with a dash and a dot. *)
Lemma C8_counterexample :
  option_map registry
    (value (main Scenario.plain None (JArr [Scenario.mirror_entry]) false []))
    = Some [Scenario.mirror] /\
  Py.getitem Scenario.mirror "path" = Ok (JStr "mirror-1.0") /\
  Str.forallb is_word "mirror-1.0" = false.
Proof. vm_compute. repeat split; reflexivity. Qed.

(** ** The batch loop (lines 279-283) *)

Lemma printProgressBar_run i total s :
  total <> 0 -> printProgressBar i total s = (Normal tt, s, []).
Proof.
  intros H. unfold printProgressBar.
  destruct (Nat.eqb total 0) eqn:E; [|reflexivity].
  apply Nat.eqb_eq in E. contradiction.
Qed.

Lemma collect_cons W plugin rest i total acc debug s :
  total <> 0 ->
  collect W (plugin :: rest) i total acc debug s =
  (jsonData <- getPluginJson W plugin debug ;;
   allPlugins' <- match jsonData with
                  | Some record =>
                      n <- getitem plugin "name" ;;
                      liftR (Py.dict_setitem acc n record)
                  | None => ret acc
                  end ;;
   collect W rest (S i) total allPlugins' debug) s.
Proof.
  intros H. cbn [collect]. unfold bind at 1.
  rewrite printProgressBar_run by assumption.
  match goal with
  | |- match ?x with _ => _ end = _ => destruct x as [[? ?] ?]
  end. reflexivity.
Qed.

(** An entry without a record is skipped: the loop goes on with the next
    entry and the same records. *)
Lemma collect_skip W plugin rest i total acc debug s s' t :
  total <> 0 ->
  getPluginJson W plugin debug s = (Normal None, s', t) ->
  collect W (plugin :: rest) i total acc debug s =
  match collect W rest (S i) total acc debug s' with
  | (r, s'', t') => (r, s'', (t ++ t')%list)
  end.
Proof.
  intros Ht H. rewrite collect_cons by assumption.
  unfold bind at 1. rewrite H. rewrite bind_ret. reflexivity.
Qed.

(** An exception of [getPluginJson] leaves the loop. *)
Lemma collect_raise W plugin rest i total acc debug s e s' t :
  total <> 0 ->
  getPluginJson W plugin debug s = (Raised e, s', t) ->
  collect W (plugin :: rest) i total acc debug s = (Raised e, s', t).
Proof.
  intros Ht H. rewrite collect_cons by assumption.
  unfold bind at 1. rewrite H. reflexivity.
Qed.

Lemma bind_congr {A B} (m : M A) (f g : A -> M B) s :
  (forall a s', f a s' = g a s') -> bind m f s = bind m g s.
Proof.
  intros H. unfold bind. destruct (m s) as [[[a| |] s1] t1]; try reflexivity.
  rewrite H. reflexivity.
Qed.

Lemma collect_app W done rest debug total :
  forall i acc s,
  collect W (done ++ rest) i total acc debug s =
  (acc' <- collect W done i total acc debug ;;
   collect W rest (i + List.length done) total acc' debug) s.
Proof.
  induction done as [|plugin done IH]; intros i acc s.
  - simpl. rewrite bind_ret, Nat.add_0_r. reflexivity.
  - cbn [app collect List.length]. rewrite bind_bind.
    apply bind_congr. intros _ s1. rewrite bind_bind.
    apply bind_congr. intros jsonData s2. rewrite bind_bind.
    apply bind_congr. intros acc' s3. rewrite IH.
    replace (S i + List.length done) with (i + S (List.length done)) by lia.
    reflexivity.
Qed.

(** The loop never changes the dictionary. *)
Lemma gentle_collect W debug total entries :
  forall i acc, gentle false (collect W entries i total acc debug).
Proof.
  induction entries as [|plugin rest IH]; intros i acc; cbn [collect].
  - apply behaved_gentle. behaved.
  - apply gentle_bind.
    { apply behaved_gentle. unfold printProgressBar. behaved. }
    intros _. apply gentle_bind.
    { intros s r s' t H. split; [|discriminate].
      exact (getPluginJson_keeps _ _ _ _ _ _ _ H). }
    intros jsonData. apply gentle_bind; [|intros; apply IH].
    apply behaved_gentle. behaved.
Qed.

Lemma collect_keeps W debug total entries i acc s r s' t :
  collect W entries i total acc debug s = (r, s', t) -> s' = s.
Proof. intros H. exact (proj1 (gentle_collect W debug total entries i acc _ _ _ _ H)). Qed.

(** ** The run *)

Lemma bind_run {A B} (m : M A) (f : A -> M B) s a s1 t1 :
  m s = (Normal a, s1, t1) ->
  bind m f s = match f a s1 with (r, s2, t2) => (r, s2, (t1 ++ t2)%list) end.
Proof. intros H. unfold bind. rewrite H. reflexivity. Qed.

Lemma bind_run_raise {A B} (m : M A) (f : A -> M B) s e s1 t1 :
  m s = (Raised e, s1, t1) -> bind m f s = (Raised e, s1, t1).
Proof. intros H. unfold bind. rewrite H. reflexivity. Qed.

(** An exception in the batch loop ends the run: nothing catches it. *)
Lemma main_raise W previous entries debug s0 oldPlugins seed t0 e s' t :
  startup previous s0 = (Normal oldPlugins, seed, t0) ->
  collect W entries 0 (List.length entries) [] debug seed = (Raised e, s', t) ->
  main W previous (JArr entries) debug s0 = (Raised e, s', (t0 ++ t)%list).
Proof.
  intros Hs Hc. unfold main. rewrite (bind_run _ _ _ _ _ _ Hs).
  unfold iter. cbn [Py.iter Py.len]. mnorm.
  rewrite (bind_run_raise _ _ _ _ _ _ Hc). reflexivity.
Qed.

Lemma main_raise_at W previous done plugin rest debug s0 oldPlugins seed t0
    acc s1 t1 e s2 t2 :
  startup previous s0 = (Normal oldPlugins, seed, t0) ->
  collect W done 0 (List.length (done ++ plugin :: rest)) [] debug seed
    = (Normal acc, s1, t1) ->
  getPluginJson W plugin debug s1 = (Raised e, s2, t2) ->
  main W previous (JArr (done ++ plugin :: rest)) debug s0
    = (Raised e, s2, (t0 ++ t1 ++ t2)%list).
Proof.
  intros Hs Hd Hg. apply (main_raise _ _ _ _ _ _ _ _ _ _ _ Hs).
  rewrite collect_app. rewrite (bind_run _ _ _ _ _ _ Hd).
  rewrite (collect_raise W plugin rest _ _ acc debug s1 e s2 t2);
    [reflexivity| |exact Hg].
  rewrite length_app. simpl. lia.
Qed.

(** ** Claim C10: a refused shortening request *)

Lemma getPluginJson_raise W plugin debug s name e s' t :
  Py.contains "site" plugin = Ok false ->
  Py.getitem plugin "name" = Ok (JStr name) ->
  resolve W plugin debug s = (Raised e, s', t) ->
  exists t', getPluginJson W plugin debug s = (Raised e, s', t').
Proof.
  intros Hsite Hname H. unfold getPluginJson, call, contains, getitem.
  rewrite Hname, Hsite. destruct debug; cbn [when]; mnorm.
  - unfold print. rewrite bind_emit. cbv beta. mnorm. rewrite H. eauto.
  - rewrite H. eauto.
Qed.

(** Lines 109-117 when the service answers with an error. *)
Lemma shorten_refused W zipUrl s url response err :
  Py.dict_contains zipUrl s = Ok false ->
  URL_SHORTENER W = Some url -> url <> "" ->
  shortener_post W url (shortener_request zipUrl) = Ok response ->
  Py.getitem response "error" = Ok err ->
  Py.eq err (JStr "") = false ->
  shorten W zipUrl s
    = (Raised AssertionError, s, [EPost url (shortener_request zipUrl)]).
Proof.
  intros Hmiss Henv Hurl Hpost Herr Hne. unfold shorten.
  rewrite bind_get_store, Hmiss. mnorm. rewrite Henv.
  destruct (String.eqb url "") eqn:E.
  { apply String.eqb_eq in E. contradiction. }
  mnorm. rewrite bind_emit. cbv beta. rewrite Hpost. mnorm.
  unfold getitem. rewrite Herr. mnorm. rewrite Hne. mnorm.
  reflexivity.
Qed.

(** Claim C10.  Let an entry without [view_only] reach the short-URL step
    with an artifact URL that the cache does not hold, the shortening
    service being configured.  When the service answers with an [error]
    other than the empty string, [getPluginJson] raises [AssertionError],
    and so does the whole run: the entries that follow are not
    processed and no registry is produced. *)
Theorem C10_refused_shortening_aborts W previous debug s0 oldPlugins seed t0
    done plugin rest acc t1 name auto_update plugin' releaseData commit
    zipUrl url response err :
  startup previous s0 = (Normal oldPlugins, seed, t0) ->
  collect W done 0 (List.length (done ++ plugin :: rest)) [] debug seed
    = (Normal acc, seed, t1) ->
  Py.contains "site" plugin = Ok false ->
  Py.getitem plugin "name" = Ok (JStr name) ->
  flag "view_only" plugin = Ok false ->
  flag "auto_update" plugin = Ok auto_update ->
  exec (resolve_release W plugin name false auto_update)
    = Normal (plugin', releaseData) ->
  exec (resolve_commit W plugin' name) = Normal (commit, zipUrl) ->
  Py.dict_contains zipUrl seed = Ok false ->
  URL_SHORTENER W = Some url ->
  url <> "" ->
  shortener_post W url (shortener_request zipUrl) = Ok response ->
  Py.getitem response "error" = Ok err ->
  Py.eq err (JStr "") = false ->
  (exists t, getPluginJson W plugin debug seed
             = (Raised AssertionError, seed, t)) /\
  (exists t, main W previous (JArr (done ++ plugin :: rest)) debug s0
             = (Raised AssertionError, seed, t)).
Proof.
  intros Hs Hd Hsite Hname Hvo Hau Hrel Hc Hmiss Henv Hurl Hpost Herr Hne.
  assert (Hres : exists t, resolve W plugin debug seed
                           = (Raised AssertionError, seed, t)).
  { unfold resolve, getitem. rewrite Hname, Hvo, Hau. mnorm.
    rewrite (bind_behaved true) by auto with behaved. rewrite Hrel.
    mnorm. rewrite (bind_behaved true) by auto with behaved. rewrite Hc.
    rewrite bind_bind.
    rewrite (bind_run_raise _ _ _ _ _ _
               (shorten_refused _ _ _ _ _ _ Hmiss Henv Hurl Hpost Herr Hne)).
    eauto. }
  destruct Hres as (t & Hres).
  destruct (getPluginJson_raise _ _ _ _ _ _ _ _ Hsite Hname Hres) as (t' & Hg).
  split; [eauto|].
  rewrite (main_raise_at _ _ _ _ _ _ _ _ _ _ _ _ _ _ _ _ Hs Hd Hg). eauto.
Qed.

Lemma C10_refused_shortening_aborts_witness :
  raised (main Scenario.refusing None
            (JArr [Scenario.viewer_entry; Scenario.tool_entry]) false [])
    = Some AssertionError.
Proof.
  destruct (C10_refused_shortening_aborts Scenario.refusing None false []
              [] [] [] [Scenario.viewer_entry] Scenario.tool_entry []
              _ _ "acme/tool" false Scenario.tool_entry _ _ _
              Scenario.service
              (JObj [("error", JStr "quota exceeded")])
              (JStr "quota exceeded")
              eq_refl ltac:(vm_compute; reflexivity) eq_refl eq_refl eq_refl
              eq_refl ltac:(vm_compute; reflexivity)
              ltac:(vm_compute; reflexivity) eq_refl eq_refl
              ltac:(discriminate) eq_refl eq_refl eq_refl)
    as [_ [t H]].
  cbn [app] in H. rewrite H. reflexivity.
Defined.

(** ** Claim C1: which failures stay within their entry *)

(** Lines 140-145 on a descriptor that is not JSON: the diagnostic is
    printed and the exception goes on. *)
Lemma fetch_descriptor_malformed W plugin name vo debug s url response
    content bytes :
  exec (descriptor_url W plugin name vo) = Normal url ->
  http_get W url = Ok response ->
  Py.getitem response "content" = Ok (JStr content) ->
  b64decode W content = Some bytes ->
  json_loads W bytes = None ->
  exists t,
    fetch_descriptor W plugin name vo debug s
      = (Raised JSONDecodeError, s, t) /\
    In (invalid_json url) t.
Proof.
  intros Hurl Hget Hcontent Hb64 Hjson. unfold fetch_descriptor.
  rewrite (bind_behaved true) by auto with behaved. rewrite Hurl.
  unfold try_http, catch.
  assert (Hbody : exists t,
            (when debug (print ("Getting plugin.json from " ++ url)) >>
             response <- getfile W url ;;
             content <- getitem response "content" ;;
             data <- decode_descriptor W url content ;;
             need <- needs_readme data ;;
             data <- (if need then readme_backfill W plugin name vo data
                      else ret data) ;;
             enveloped <- contains "plugin" data ;;
             if enveloped then getitem data "plugin" else ret data) s
            = (Raised JSONDecodeError, s, t) /\ In (invalid_json url) t).
  { assert (Hdec : decode_descriptor W url (JStr content) s
                   = (Raised JSONDecodeError, s, [invalid_json url])).
    { unfold decode_descriptor, catch, b64. rewrite Hb64. mnorm.
      rewrite Hjson. cbn [raise]. unfold print. rewrite bind_emit.
      reflexivity. }
    assert (Hrest : exists t,
              (response <- getfile W url ;;
               content <- getitem response "content" ;;
               data <- decode_descriptor W url content ;;
               need <- needs_readme data ;;
               data <- (if need then readme_backfill W plugin name vo data
                        else ret data) ;;
               enveloped <- contains "plugin" data ;;
               if enveloped then getitem data "plugin" else ret data) s
              = (Raised JSONDecodeError, s, t) /\ In (invalid_json url) t).
    { unfold getfile. rewrite bind_bind, bind_emit. cbv beta.
      rewrite Hget. mnorm. unfold getitem at 1. rewrite Hcontent. mnorm.
      rewrite (bind_run_raise _ _ _ _ _ _ Hdec).
      eexists. split; [reflexivity|]. simpl. auto. }
    destruct Hrest as (t & Hrest & Hin).
    destruct debug; cbn [when].
    - unfold print. rewrite bind_emit. cbv beta. rewrite Hrest.
      eexists. split; [reflexivity|]. right. exact Hin.
    - rewrite bind_ret. eauto. }
  destruct Hbody as (t & Hbody & Hin). rewrite Hbody.
  cbn [exn_is_http raise]. eexists. split; [reflexivity|].
  apply in_or_app. right. rewrite app_nil_r. exact Hin.
Qed.

(** The steps of lines 41-124, as [locates] records them, followed by an
    exception in the descriptor step. *)
Lemma resolve_descriptor_raise W plugin debug s R e t :
  locates W plugin s R ->
  fetch_descriptor W (r_plugin R) (r_name R) (r_view_only R) debug s
    = (Raised e, s, t) ->
  exists t', resolve W plugin debug s = (Raised e, s, t') /\
             forall ev, In ev t -> In ev t'.
Proof.
  destruct R as [name vo au plugin' rd commit zipUrl shortUrl pd data req].
  unfold locates. simpl.
  intros (Hname & Hvo & Hau & Hrel & Hcz & Hpd) Hd.
  unfold resolve, getitem. rewrite Hname, Hvo, Hau. mnorm.
  rewrite (bind_behaved true) by auto with behaved. rewrite Hrel.
  assert (Hrest : forall commit zipUrl shortUrl, exists t',
            (projectData <- fetch_project W name ;;
             data <- fetch_descriptor W plugin' name vo debug ;;
             requirements_txt <- fetch_requirements W plugin' name vo ;;
             record <- liftR (finish_record W plugin' name vo commit zipUrl
                                shortUrl projectData rd data
                                requirements_txt) ;;
             when debug (n <- liftR (Py.getitem plugin' "name") ;;
                         print ("Finished processing plugin: "
                                ++ py_format W n)) >>
             ret (Some record)) s = (Raised e, s, t') /\
            forall ev, In ev t -> In ev t').
  { intros c z sh.
    rewrite (bind_behaved true) by auto with behaved. rewrite Hpd.
    rewrite (bind_run_raise _ _ _ _ _ _ Hd).
    eexists. split; [reflexivity|]. intros ev Hin.
    apply in_or_app. auto. }
  destruct vo.
  - destruct Hcz as (-> & -> & ->). mnorm.
    destruct (Hrest JNull JNull (JStr "")) as (t' & -> & Hin).
    eexists. split; [reflexivity|]. intros ev Hev.
    apply in_or_app. auto.
  - destruct Hcz as (Hc & t3 & Hs). mnorm.
    rewrite (bind_behaved true) by auto with behaved. rewrite Hc.
    rewrite bind_bind. rewrite (bind_run _ _ _ _ _ _ Hs). mnorm.
    destruct (Hrest commit zipUrl shortUrl) as (t' & -> & Hin).
    eexists. split; [reflexivity|]. intros ev Hev.
    apply in_or_app. right. apply in_or_app. right.
    apply in_or_app. auto.
Qed.

Lemma getPluginJson_raise_trace W plugin debug s name e s' t :
  Py.contains "site" plugin = Ok false ->
  Py.getitem plugin "name" = Ok (JStr name) ->
  resolve W plugin debug s = (Raised e, s', t) ->
  exists t', getPluginJson W plugin debug s = (Raised e, s', t') /\
             forall ev, In ev t -> In ev t'.
Proof.
  intros Hsite Hname H. unfold getPluginJson, call, contains, getitem.
  rewrite Hname, Hsite. destruct debug; cbn [when]; mnorm.
  - unfold print. rewrite bind_emit. cbv beta. mnorm. rewrite H.
    eexists. split; [reflexivity|]. intros ev Hev. right. exact Hev.
  - rewrite H. eauto.
Qed.

(** Claim C1, as the code has it.  An entry for which [getPluginJson]
    returns no record is skipped, and the batch goes on with the next
    entry and the records it had.  An exception of [getPluginJson] is
    caught nowhere and ends the run.  A descriptor whose decoded content
    is not JSON is such an exception: once lines 41-124 have completed,
    [getPluginJson] prints the diagnostic and raises. *)
Theorem C1_failure_isolation W plugin debug :
  (forall rest i total acc s s' t,
     total <> 0 ->
     getPluginJson W plugin debug s = (Normal None, s', t) ->
     collect W (plugin :: rest) i total acc debug s =
     match collect W rest (S i) total acc debug s' with
     | (r, s'', t') => (r, s'', (t ++ t')%list)
     end) /\
  (forall previous s0 oldPlugins seed t0 done rest acc s1 t1 e s2 t2,
     startup previous s0 = (Normal oldPlugins, seed, t0) ->
     collect W done 0 (List.length (done ++ plugin :: rest)) [] debug seed
       = (Normal acc, s1, t1) ->
     getPluginJson W plugin debug s1 = (Raised e, s2, t2) ->
     main W previous (JArr (done ++ plugin :: rest)) debug s0
       = (Raised e, s2, (t0 ++ t1 ++ t2)%list)) /\
  (forall s R url response content bytes,
     Py.contains "site" plugin = Ok false ->
     locates W plugin s R ->
     exec (descriptor_url W (r_plugin R) (r_name R) (r_view_only R))
       = Normal url ->
     http_get W url = Ok response ->
     Py.getitem response "content" = Ok (JStr content) ->
     b64decode W content = Some bytes ->
     json_loads W bytes = None ->
     exists t,
       getPluginJson W plugin debug s = (Raised JSONDecodeError, s, t) /\
       In (invalid_json url) t).
Proof.
  split; [|split].
  - intros. apply collect_skip; assumption.
  - intros. eapply main_raise_at; eassumption.
  - intros s R url response content bytes Hsite HR Hurl Hget Hc Hb Hj.
    destruct (fetch_descriptor_malformed W _ _ _ debug s _ _ _ _
                Hurl Hget Hc Hb Hj) as (t & Hd & Hin).
    destruct (resolve_descriptor_raise _ _ _ _ _ _ _ HR Hd)
      as (t' & Hres & Hin').
    destruct (getPluginJson_raise_trace _ _ _ _ _ _ _ _ Hsite (proj1 HR) Hres)
      as (t'' & Hg & Hin'').
    exists t''. auto.
Qed.

(** An entry whose release does not exist is skipped, and a descriptor
    that is not JSON ends the run. *)
Lemma C1_failure_isolation_witness :
  value (collect Scenario.plain
           [Scenario.missing_entry; Scenario.viewer_entry] 0 2 [] false [])
    = value (collect Scenario.plain [Scenario.viewer_entry] 1 2 [] false []) /\
  raised (main Scenario.plain None
            (JArr [Scenario.broken_entry; Scenario.viewer_entry]) false [])
    = Some JSONDecodeError.
Proof.
  destruct (C1_failure_isolation Scenario.plain Scenario.missing_entry false)
    as (Hskip & _ & _).
  destruct (C1_failure_isolation Scenario.plain Scenario.broken_entry false)
    as (_ & Hraise & Hbad).
  split.
  - rewrite (Hskip [Scenario.viewer_entry] 0 2 [] [] [] _
               ltac:(discriminate) ltac:(vm_compute; reflexivity)).
    destruct (collect Scenario.plain [Scenario.viewer_entry] 1 2 [] false [])
      as [[r s] t]. reflexivity.
  - destruct (Hbad []
                {| r_name := "acme/broken"; r_view_only := true;
                   r_auto_update := false; r_plugin := Scenario.broken_entry;
                   r_release := JNull; r_commit := JNull; r_zipUrl := JNull;
                   r_shortUrl := JStr "";
                   r_project :=
                     JObj [("full_name", JStr "acme/broken");
                           ("updated_at", JStr "2024-01-01T00:00:00Z")];
                   r_data := JNull; r_requirements := "" |}
                (Scenario.broken ++ "/contents/plugin.json")
                (JObj [("encoding", JStr "base64");
                       ("content", JStr "broken.json")])
                "broken.json" "broken.json"
                eq_refl
                ltac:(unfold locates; cbn; repeat split; vm_compute; reflexivity)
                ltac:(vm_compute; reflexivity) ltac:(vm_compute; reflexivity)
                eq_refl eq_refl eq_refl)
      as (t & Hg & _).
    pose proof (Hraise None [] [] [] [] [] [Scenario.viewer_entry] [] [] []
                  JSONDecodeError [] t eq_refl eq_refl Hg) as Hm.
    cbn [app] in Hm. rewrite Hm. reflexivity.
Defined.

(** Claim C1 as stated fails on a descriptor that is not JSON: the run
    ends with the exception, and the entry that follows, which resolves
    on its own, is never processed. *)
Lemma C1_counterexample :
  raised (main Scenario.plain None
            (JArr [Scenario.broken_entry; Scenario.viewer_entry]) false [])
    = Some JSONDecodeError /\
  value (main Scenario.plain None
           (JArr [Scenario.broken_entry; Scenario.viewer_entry]) false [])
    = None /\
  value (getPluginJson Scenario.plain Scenario.viewer_entry false [])
    = Some (Some Scenario.viewer_record).
Proof. vm_compute. repeat split; reflexivity. Qed.

(** ** Claim C9: the short-URL cache *)

Lemma load_previous_store records :
  forall oldPlugins s oldPlugins' s' t,
  load_previous records oldPlugins s = (Normal oldPlugins', s', t) ->
  s' = fold_left (fun cache record =>
                    match contribution record with
                    | Some (url, short) => Py.store url short cache
                    | None => cache
                    end) records s.
Proof.
  induction records as [|record rest IH]; simpl; intros old s old' s' t H.
  - injection H as _ <- _. reflexivity.
  - unfold contains, getitem, contribution in *.
    destruct (Py.contains "packageShortUrl" record) as [has|] eqn:Hhas;
      mnorm_in H; [|discriminate H].
    assert (Hstep : exists s1 t1,
              s1 = match
                     match Py.getitem record "packageShortUrl",
                           Py.getitem record "packageUrl" with
                     | Ok short, Ok url =>
                         match Py.len short with
                         | Ok n => if (0 <? n)%nat then Some (url, short)
                                   else None
                         | Err _ => None
                         end
                     | _, _ => None
                     end
                   with
                   | Some (url, short) => Py.store url short s
                   | None => s
                   end /\
              (lastUpdated <- liftR (Py.getitem record "lastUpdated") ;;
               projectData <- liftR (Py.getitem record "projectData") ;;
               full_name <- liftR (Py.getitem projectData "full_name") ;;
               oldPlugins' <- liftR (Py.dict_setitem old full_name
                                       lastUpdated) ;;
               load_previous rest oldPlugins') s1 = (Normal old', s', t1)).
    { destruct has.
      - destruct (Py.getitem record "packageShortUrl") as [short|] eqn:Hs;
          mnorm_in H; [|discriminate H].
        destruct (Py.len short) as [n|] eqn:Hn; mnorm_in H; [|discriminate H].
        destruct (0 <? n)%nat; cbn [when] in H; mnorm_in H.
        + destruct (Py.getitem record "packageUrl") as [url|] eqn:Hu;
            mnorm_in H; [|discriminate H].
          rewrite bind_get_store in H.
          unfold Py.dict_setitem in H at 1.
          destruct (Py.hashable url); mnorm_in H; [|discriminate H].
          unfold bind at 1, set_store in H.
          match type of H with
          | match ?x with _ => _ end = _ =>
              destruct x as [[r2 s2] t2] eqn:E
          end.
          injection H as -> -> <-. eauto.
        + destruct (Py.getitem record "packageUrl"); eauto.
      - mnorm_in H. cbn [when] in H. mnorm_in H.
        destruct record as [| | | | |l|o]; try discriminate Hhas;
          cbn [Py.getitem]; eauto.
        cbn [Py.contains] in Hhas. injection Hhas as Hhas.
        unfold Obj.mem in Hhas.
        destruct (Obj.get "packageShortUrl" o); [discriminate|]. eauto. }
    destruct Hstep as (s1 & t1 & -> & Hrest).
    destruct (Py.getitem record "lastUpdated") as [lu|]; mnorm_in Hrest;
      [|discriminate Hrest].
    destruct (Py.getitem record "projectData") as [pd|]; mnorm_in Hrest;
      [|discriminate Hrest].
    destruct (Py.getitem pd "full_name") as [fn|]; mnorm_in Hrest;
      [|discriminate Hrest].
    destruct (Py.dict_setitem old fn lu) as [old1|]; mnorm_in Hrest;
      [|discriminate Hrest].
    exact (IH _ _ _ _ _ Hrest).
Qed.

Lemma startup_seed previous records s0 oldPlugins seed t0 :
  match previous with
  | Some document => Py.iter document = Ok records
  | None => records = []
  end ->
  startup previous s0 = (Normal oldPlugins, seed, t0) ->
  seed = seed_of records.
Proof.
  intros Hrec H. unfold startup, bind at 1, set_store in H.
  match type of H with
  | match ?x with _ => _ end = _ => destruct x as [[r s1] t1] eqn:E
  end.
  injection H as -> -> <-.
  destruct previous as [document|].
  - unfold iter in E. rewrite Hrec in E. mnorm_in E.
    exact (load_previous_store _ _ _ _ _ _ E).
  - subst records. injection E as _ <- _. reflexivity.
Qed.

(** Lines 107-117 on an artifact URL that the cache does not hold: the
    URL is submitted, and the cache is left as it was. *)
Lemma shorten_miss W zipUrl s url r s' t :
  Py.dict_contains zipUrl s = Ok false ->
  URL_SHORTENER W = Some url -> url <> "" ->
  shorten W zipUrl s = (r, s', t) ->
  s' = s /\ t = [EPost url (shortener_request zipUrl)].
Proof.
  intros Hmiss Henv Hurl H.
  split; [exact (proj1 (gentle_shorten W true zipUrl _ _ _ _ H))|].
  unfold shorten in H. rewrite bind_get_store, Hmiss in H. mnorm_in H.
  rewrite Henv in H.
  destruct (String.eqb url "") eqn:E.
  { apply String.eqb_eq in E. contradiction. }
  mnorm_in H. rewrite bind_emit in H. cbv beta in H.
  destruct (shortener_post W url (shortener_request zipUrl)) as [resp|];
    mnorm_in H; [|injection H as _ _ <-; reflexivity].
  unfold getitem in H.
  destruct (Py.getitem resp "error") as [err|]; mnorm_in H;
    [|injection H as _ _ <-; reflexivity].
  destruct (Py.eq err (JStr "")).
  - destruct (Py.getitem resp "url_short") as [[| | | |u| |]|]; mnorm_in H;
      try (injection H as _ _ <-; reflexivity).
    destruct (String.prefix "http" u); injection H as _ _ <-; reflexivity.
  - mnorm_in H. cbn in H. injection H as _ _ <-. reflexivity.
Qed.

(** Claim C9, as the code has it.  At the start of a run the cache is
    seeded from the previous registry: every record with a non-empty
    [packageShortUrl] contributes its [packageUrl] and [packageShortUrl].
    After that the cache is only read: the batch loop leaves it as it
    was seeded, and an artifact URL that the cache does not hold is
    submitted to the shortening service, the short URL that comes back
    not being stored. *)
Theorem C9_short_url_cache W previous records s0 oldPlugins seed t0 :
  match previous with
  | Some document => Py.iter document = Ok records
  | None => records = []
  end ->
  startup previous s0 = (Normal oldPlugins, seed, t0) ->
  seed = seed_of records /\
  (forall entries i total acc debug r s' t,
     collect W entries i total acc debug seed = (r, s', t) -> s' = seed) /\
  (forall zipUrl url r s' t,
     Py.dict_contains zipUrl seed = Ok false ->
     URL_SHORTENER W = Some url -> url <> "" ->
     shorten W zipUrl seed = (r, s', t) ->
     s' = seed /\ t = [EPost url (shortener_request zipUrl)]).
Proof.
  intros Hrec H. split; [exact (startup_seed _ _ _ _ _ _ Hrec H)|]. split.
  - intros entries i total acc debug r s' t Hc.
    exact (collect_keeps _ _ _ _ _ _ _ _ _ _ Hc).
  - intros zipUrl url r s' t. apply shorten_miss.
Qed.

(** A first run: the cache is empty, and stays so after a submission. *)
Lemma C9_short_url_cache_witness :
  shorten Scenario.shortening (JStr Scenario.tool_zip) []
    = (Normal (JStr "https://v35.us/t1"), [],
       [EPost Scenario.service (shortener_request (JStr Scenario.tool_zip))]).
Proof.
  destruct (C9_short_url_cache Scenario.shortening None [] [] [] [] []
              eq_refl eq_refl) as (_ & _ & Hmiss).
  destruct (shorten Scenario.shortening (JStr Scenario.tool_zip) [])
    as [[r s'] t] eqn:E.
  destruct (Hmiss (JStr Scenario.tool_zip) Scenario.service r s' t
              eq_refl eq_refl ltac:(discriminate) E) as [-> ->].
  vm_compute in E. injection E as <-. reflexivity.
Defined.

(** Claim C9 as stated fails when two entries resolve to one artifact:
    the archive of tag v1 is submitted to the service twice in one run. *)
Lemma C9_counterexample :
  submissions (JStr Scenario.tool_zip)
    (snd (main Scenario.shortening None
            (JArr [Scenario.tool_entry; Scenario.extras_entry]) false []))
    = 2 /\
  snd (fst (main Scenario.shortening None
              (JArr [Scenario.tool_entry; Scenario.extras_entry]) false []))
    = [].
Proof. vm_compute. split; reflexivity. Qed.

(** ** Claim C4: the README fallback *)

(** Claim C4 on an enveloped descriptor: the README is fetched and its
    text is written into the envelope (lines 146-163), which line 166
    then drops; the record keeps the short description. *)
Theorem C4_envelope_loses_readme :
  json_loads Scenario.plain "legacy.json"
    = Some (JObj [("plugin", JObj [("name", JStr "Legacy");
                                   ("longdescription", JStr "Old.")])]) /\
  http_get Scenario.plain (Scenario.legacy ++ "/contents/README.md")
    = Ok (JObj [("encoding", JStr "base64");
                ("content", JStr "The legacy plugin, at length.")]) /\
  In (EGet (Scenario.legacy ++ "/contents/README.md"))
     (snd (getPluginJson Scenario.plain Scenario.legacy_entry false [])) /\
  value (getPluginJson Scenario.plain Scenario.legacy_entry false [])
    = Some (Some Scenario.legacy_record) /\
  Py.getitem Scenario.legacy_record "longdescription" = Ok (JStr "Old.").
Proof. vm_compute. repeat split; auto. Qed.
